(** * Chat alert bot: the /ask pipeline of [app.py]

    A shallow embedding of the request parser, the context fetcher, the answer
    composer, the alert formatter, the alert path (notification, storage,
    token check) and the chat router of [app.py], with the properties its
    specification states about them and further properties read off the code.

    Modelling conventions.
    - A Python [str] is a [string] that holds its UTF-8 encoding.  [len] and
      slices count code points ([py_len], [py_take]).  The blanks of
      [str.split]/[str.strip], the letters [str.lower] changes and the digits
      [int] reads are the ASCII ones: these functions are those of Python on
      ASCII text ([is_ascii]), and a statement whose content depends on them
      is made for ASCII text.  [str.upper], whose case tables are the
      runtime's, is a [Variable] known on ASCII text.
    - A Python [int] is a [Z].
    - A call that may raise returns a [result]: [Ok v] or [Raise e].
    - Module-level settings and the external collaborators (BigQuery, Vertex,
      the clock) are [Variable]s of the section. *)

From Stdlib Require Import ZArith List Bool Ascii String Lia.
From Stdlib Require Import DecimalString DecimalPos.
Import ListNotations.

Local Open Scope string_scope.
Local Open Scope Z_scope.

Set Warnings "-register-all".

(** ** Exceptions *)

Inductive exn : Type :=
| ValueError
| IndexError
| AttributeError
| KeyError
| TypeError
| HTTPException (status : Z) (detail : string)
| OtherError (msg : string).

Inductive result (A : Type) : Type :=
| Ok (a : A)
| Raise (e : exn).

Arguments Ok {A} a.
Arguments Raise {A} e.

Definition bind {A B : Type} (m : result A) (k : A -> result B) : result B :=
  match m with
  | Ok a => k a
  | Raise e => Raise e
  end.

Notation "x <- m ;; k" := (bind m (fun x => k))
  (at level 61, m at next level, right associativity).

(** [str(e)] of an exception, as the f-strings of the program print it. *)
Definition str_of_exn (e : exn) : string :=
  match e with
  | ValueError => "ValueError"
  | IndexError => "list index out of range"
  | AttributeError => "AttributeError"
  | KeyError => "KeyError"
  | TypeError => "TypeError"
  | HTTPException _ detail => detail
  | OtherError msg => msg
  end.

(** ** Strings *)

Definition nat_of (c : ascii) : nat := nat_of_ascii c.

(** The ASCII characters [str.isspace] accepts: TAB..CR, FS..US and space.
    The blanks beyond ASCII (U+0085, U+00A0, U+1680, U+2000 to U+200A,
    U+2028, U+2029, U+202F, U+205F, U+3000) take several bytes each and are
    not blanks here: [split] and [strip] below are [str.split()] and
    [str.strip()] on ASCII text. *)
Definition is_space (c : ascii) : bool :=
  let n := nat_of c in
  ((9 <=? n) && (n <=? 13) || (28 <=? n) && (n <=? 32))%nat.

Definition is_upper (c : ascii) : bool :=
  let n := nat_of c in ((65 <=? n) && (n <=? 90))%nat.

Definition is_lower (c : ascii) : bool :=
  let n := nat_of c in ((97 <=? n) && (n <=? 122))%nat.

Definition lower_char (c : ascii) : ascii :=
  if is_upper c then ascii_of_nat (nat_of c + 32) else c.

Definition upper_char (c : ascii) : ascii :=
  if is_lower c then ascii_of_nat (nat_of c - 32) else c.

Fixpoint map_string (f : ascii -> ascii) (s : string) : string :=
  match s with
  | EmptyString => EmptyString
  | String c r => String (f c) (map_string f r)
  end.

(** [s.lower()] and [s.upper()] on ASCII text: the letters A to Z and a to z
    change, every other byte stays.  The program's [upper] call goes through
    the [Variable] [str_upper]; [upper] is what that is known to be on ASCII
    text. *)
Definition lower (s : string) : string := map_string lower_char s.
Definition upper (s : string) : string := map_string upper_char s.

(** [s.startswith(p)]. *)
Definition startswith (s p : string) : bool := String.prefix p s.

Definition head_is_space (s : string) : bool :=
  match s with
  | EmptyString => false
  | String c _ => is_space c
  end.

(** [s.split()]: the maximal runs of non-blank characters, in order. *)
Fixpoint split (s : string) : list string :=
  match s with
  | EmptyString => []
  | String c r =>
      if is_space c then split r
      else if head_is_space r then String c EmptyString :: split r
      else match split r with
           | t :: ts => String c t :: ts
           | [] => [String c EmptyString]
           end
  end.

(** [sep.join(parts)]. *)
Fixpoint join (sep : string) (parts : list string) : string :=
  match parts with
  | [] => EmptyString
  | [p] => p
  | p :: ps => p ++ sep ++ join sep ps
  end.

Fixpoint lstrip (s : string) : string :=
  match s with
  | EmptyString => EmptyString
  | String c r => if is_space c then lstrip r else s
  end.

Fixpoint rstrip (s : string) : string :=
  match s with
  | EmptyString => EmptyString
  | String c r =>
      match rstrip r with
      | EmptyString => if is_space c then EmptyString else String c EmptyString
      | r' => String c r'
      end
  end.

(** [s.strip()]. *)
Definition strip (s : string) : string := rstrip (lstrip s).

(** [s.split(sep, 1)] for a one-character separator: one or two pieces. *)
Fixpoint split_once (sep : ascii) (s : string) : list string :=
  match s with
  | EmptyString => [EmptyString]
  | String c r =>
      if Ascii.eqb c sep then [EmptyString; r]
      else match split_once sep r with
           | p :: ps => String c p :: ps
           | [] => [String c EmptyString]
           end
  end.

(** [xs[i]], raising [IndexError] out of range. *)
Definition index {A : Type} (xs : list A) (i : nat) : result A :=
  match nth_error xs i with
  | Some x => Ok x
  | None => Raise IndexError
  end.

(** [s in t]. *)
Fixpoint contains (t s : string) : bool :=
  String.prefix s t ||
  match t with
  | EmptyString => false
  | String _ r => contains r s
  end.

(** Text of code points below 128, on which the string functions above are
    those of Python. *)
Definition is_ascii_char (c : ascii) : bool := (nat_of c <? 128)%nat.

Fixpoint is_ascii (s : string) : bool :=
  match s with
  | EmptyString => true
  | String c r => is_ascii_char c && is_ascii r
  end.

(** A byte [10xxxxxx] continues the code point begun before it. *)
Definition is_continuation (c : ascii) : bool :=
  let n := nat_of c in ((128 <=? n) && (n <? 192))%nat.

(** [len(s)]: the number of code points. *)
Fixpoint py_len (s : string) : nat :=
  match s with
  | EmptyString => 0%nat
  | String c r => if is_continuation c then py_len r else S (py_len r)
  end.

(** [s[:n]]: the first [n] code points. *)
Fixpoint py_take (n : nat) (s : string) : string :=
  match s with
  | EmptyString => EmptyString
  | String c r =>
      if is_continuation c then String c (py_take n r)
      else match n with
           | O => EmptyString
           | S n' => String c (py_take n' r)
           end
  end.

(** [str(n)] for an [int]. *)
Definition str_of_Z (n : Z) : string := NilEmpty.string_of_int (Z.to_int n).
Definition str_of_nat (n : nat) : string := str_of_Z (Z.of_nat n).

(** ** [int(s)] *)

(** The value of an ASCII digit.  [int] also reads the decimal digits of
    other scripts, which take several bytes each and are no digits here:
    [py_int] below is [int] on ASCII text. *)
Definition digit_val (c : ascii) : option Z :=
  let n := nat_of c in
  if ((48 <=? n) && (n <=? 57))%nat then Some (Z.of_nat (n - 48)) else None.

(** The digits of a literal: single underscores may separate digits.  Returns
    the value and how many digits were read. *)
Fixpoint int_digits (prev_us : bool) (acc : Z) (n : nat) (s : string)
  : option (Z * nat) :=
  match s with
  | EmptyString => if prev_us then None else Some (acc, n)
  | String c r =>
      if Ascii.eqb c "_" then
        if prev_us then None else int_digits true acc n r
      else
        match digit_val c with
        | Some d => int_digits false (10 * acc + d) (S n) r
        | None => None
        end
  end.

(** [int(s)] in base 10: blanks around the literal are dropped, a sign may
    lead, the digits may not start with an underscore.  Above 640 digits the
    interpreter's limit [max_str_digits] applies (0 turns it off); Python
    ships with 4300. *)
Definition py_int (max_str_digits : nat) (s : string) : result Z :=
  let s := strip s in
  let '(neg, body) :=
    match s with
    | String "-" r => (true, r)
    | String "+" r => (false, r)
    | _ => (false, s)
    end in
  match body with
  | EmptyString => Raise ValueError
  | String c _ =>
      if Ascii.eqb c "_" then Raise ValueError
      else
        match int_digits false 0 0 body with
        | None => Raise ValueError
        | Some (v, n) =>
            if ((640 <? n) && (0 <? max_str_digits) && (max_str_digits <? n))%nat
            then Raise ValueError
            else Ok (if neg then - v else v)
        end
  end.

(** ** Python values

    JSON documents, BigQuery cells and response dicts.  A [float] is carried
    by its [repr]; [VObj] is any other object (a [datetime], a [Decimal]),
    carried by its [str]. *)

Inductive value : Type :=
| VNone
| VBool (b : bool)
| VInt (z : Z)
| VFloat (repr : string)
| VStr (s : string)
| VList (items : list value)
| VDict (fields : list (string * value))
| VObj (str_form : string).

Definition row : Type := list (string * value).

(** [bool(v)]. *)
Definition truthy (v : value) : bool :=
  match v with
  | VNone => false
  | VBool b => b
  | VInt z => negb (z =? 0)
  | VFloat r => negb (String.eqb r "0.0" || String.eqb r "-0.0")
  | VStr s => negb (String.eqb s "")
  | VList l => match l with [] => false | _ => true end
  | VDict d => match d with [] => false | _ => true end
  | VObj _ => true
  end.

(** [d.get(k)] on the fields of a dict: [None] when the key is missing. *)
Fixpoint dict_get (d : list (string * value)) (k : string) : option value :=
  match d with
  | [] => None
  | (k', v) :: d' => if String.eqb k' k then Some v else dict_get d' k
  end.

(** [x.get(k, default)]: only a dict has the method. *)
Definition py_get (x : value) (k : string) (default : value) : result value :=
  match x with
  | VDict d => Ok (match dict_get d k with Some v => v | None => default end)
  | _ => Raise AttributeError
  end.

(** [x[k]] for a string key. *)
Definition py_item (x : value) (k : string) : result value :=
  match x with
  | VDict d => match dict_get d k with Some v => Ok v | None => Raise KeyError end
  | _ => Raise TypeError
  end.

(** [x == s] for a str literal [s]. *)
Definition eq_str (x : value) (s : string) : bool :=
  match x with
  | VStr s' => String.eqb s' s
  | _ => false
  end.

(** [x.strip()]: only a str has the method. *)
Definition py_strip (x : value) : result string :=
  match x with
  | VStr s => Ok (strip s)
  | _ => Raise AttributeError
  end.

(** [a or b]. *)
Definition py_or (a b : value) : value := if truthy a then a else b.

(** ** [json.dumps(..., default=str)] *)

Definition dq : string := String "034" EmptyString.
Definition nl : string := String "010" EmptyString.

Definition hex_digit (n : nat) : string :=
  String.substring (n mod 16) 1 "0123456789abcdef".

(** One character of a JSON string under [ensure_ascii]. *)
Definition json_escape_char (c : ascii) : string :=
  let n := nat_of c in
  if Ascii.eqb c "034" then "\" ++ dq
  else if Ascii.eqb c "\" then "\\"
  else if Ascii.eqb c "008" then "\b"
  else if Ascii.eqb c "012" then "\f"
  else if Ascii.eqb c "010" then "\n"
  else if Ascii.eqb c "013" then "\r"
  else if Ascii.eqb c "009" then "\t"
  else if ((32 <=? n) && (n <=? 126))%nat then String c EmptyString
  else "\u00" ++ hex_digit (n / 16) ++ hex_digit n.

Fixpoint json_escape (s : string) : string :=
  match s with
  | EmptyString => EmptyString
  | String c r => json_escape_char c ++ json_escape r
  end.

Definition json_string (s : string) : string := dq ++ json_escape s ++ dq.

Definition json_float (r : string) : string :=
  if String.eqb r "nan" then "NaN"
  else if String.eqb r "inf" then "Infinity"
  else if String.eqb r "-inf" then "-Infinity"
  else r.

Fixpoint json_dumps (v : value) : string :=
  match v with
  | VNone => "null"
  | VBool true => "true"
  | VBool false => "false"
  | VInt z => str_of_Z z
  | VFloat r => json_float r
  | VStr s => json_string s
  | VList l => "[" ++ join ", " (map json_dumps l) ++ "]"
  | VDict d =>
      "{" ++ join ", " (map (fun '(k, x) => json_string k ++ ": " ++ json_dumps x) d) ++ "}"
  | VObj s => json_string s
  end.

(** ** Collaborator interfaces *)

(** What [client.query(sql, job_config=...)] is handed: the SQL text and the
    scalar parameters [(name, type, value)], or [None] for no parameters. *)
Record Query : Type := mk_Query {
  q_sql : string;
  q_parameters : option (list (string * string * string))
}.

(** A BigQuery client, by its one use: run a query and list the rows. *)
Definition Client : Type := Query -> result (list row).

(** The request body of [POST /alert]. *)
Record ErrorAlert : Type := mk_ErrorAlert {
  service : string;
  error_type : string;
  message : string;
  timestamp : option string;
  stack_trace : option string;
  affected_users : option Z;
  severity : string;
  recent_logs : option (list value);
  environment : string
}.

(** ** The filter parser *)

(** ** Outbound calls

    The alert path posts to the chat webhook and inserts into BigQuery.  A
    function that does so is an [io]: it takes the log of the calls made so
    far and returns its result with the log extended by the calls it made. *)

Inductive call : Type :=
| PostCall (url : string) (json_body : value) (timeout : Z)
| ClientCall (project : string)
| InsertCall (table_id : string) (rows : list row).

(** What [requests.post] does: a response comes back with a status code, or
    the call raises a [requests.exceptions.RequestException], or it raises
    anything else. *)
Inductive post_outcome : Type :=
| Responded (status_code : Z)
| RequestException (msg : string)
| PostRaised (e : exn).

Definition io (A : Type) : Type := list call -> result A * list call.

Definition ret {A : Type} (a : A) : io A := fun log => (Ok a, log).

Definition lift {A : Type} (r : result A) : io A := fun log => (r, log).

Definition emit (c : call) : io unit := fun log => (Ok tt, (log ++ [c])%list).

Definition io_bind {A B : Type} (m : io A) (k : A -> io B) : io B :=
  fun log =>
    match m log with
    | (Ok a, log') => k a log'
    | (Raise e, log') => (Raise e, log')
    end.

(** [try: m except Exception as e: handler e]. *)
Definition io_catch {A : Type} (m : io A) (handler : exn -> io A) : io A :=
  fun log =>
    match m log with
    | (Ok a, log') => (Ok a, log')
    | (Raise e, log') => handler e log'
    end.

Notation "x <~ m ;; k" := (io_bind m (fun x => k))
  (at level 61, m at next level, right associativity).

(** The three locals the loop of [parse_prompt_and_filters] updates. *)
Record parse_state : Type := mk_parse_state {
  st_service : option string;
  st_since_days : Z;
  st_parts : list string
}.

Section App.

(** Interpreter setting [sys.get_int_max_str_digits()]. *)
Variable int_max_str_digits : nat.

(** Module-level settings read from the environment. *)
Variable PROJECT : option string.
Variable BQ_DATASET : string.
Variable BQ_TABLE : string.
Variable ASK_DEFAULT_SINCE_DAYS : Z.
Variable ASK_MAX_ROWS : Z.
Variable ASK_TS_COLUMN : string.
Variable ASK_SERVICE_COLUMN : string.

(** External collaborators. *)

(** [bigquery.Client(project=...)]. *)
Variable bigquery_Client : string -> result Client.
(** [(datetime.now(timezone.utc) - timedelta(days=d)).isoformat()]. *)
Variable utc_days_ago_iso : Z -> result string.
(** [datetime.now(timezone.utc).isoformat()]. *)
Variable utc_now_iso : string.
(** The Vertex model, [None] when it is not configured: from a prompt to
    [resp.candidates[0].content.parts[0].text]. *)
Variable _gen : option (string -> result string).

(** Settings and collaborators of the alert path. *)
Variable VERIFY_TOKEN : string.
Variable CHAT_WEBHOOK_URL : string.
(** [requests.post(url, json=..., timeout=...)]. *)
Variable requests_post : string -> value -> Z -> post_outcome.
(** [client.insert_rows_json(table_id, rows)]: the list of errors. *)
Variable insert_rows_json : string -> list row -> result (list value).
(** The readings of the clock in [store_alert_in_bigquery] and in
    [receive_alert]; [utc_now_iso] is the one in [format_error_notification]. *)
Variable utc_now_store : string.
Variable utc_now_response : string.

(** [str.upper] of the runtime. *)
Variable str_upper : string -> string.


(** One turn of the [for token in text.split()] loop.  Only [ValueError] is
    caught around the [since:] branch; any other exception leaves the loop. *)
Definition parse_token (st : parse_state) (token : string) : result parse_state :=
  if startswith (lower token) "service:" then
    v <- index (split_once ":" token) 1 ;;
    Ok (mk_parse_state (Some v) (st_since_days st) (st_parts st))
  else if startswith (lower token) "since:" then
    match (v <- index (split_once ":" token) 1 ;;
           n <- py_int int_max_str_digits v ;;
           Ok (Z.max 1 n)) with
    | Ok d => Ok (mk_parse_state (st_service st) d (st_parts st))
    | Raise ValueError => Ok st
    | Raise e => Raise e
    end
  else
    Ok (mk_parse_state (st_service st) (st_since_days st) (st_parts st ++ [token])).

Fixpoint parse_loop (st : parse_state) (tokens : list string) : result parse_state :=
  match tokens with
  | [] => Ok st
  | token :: rest => st' <- parse_token st token ;; parse_loop st' rest
  end.

Definition parse_prompt_and_filters (text : string)
  : result (string * option string * Z) :=
  st <- parse_loop (mk_parse_state None ASK_DEFAULT_SINCE_DAYS []) (split text) ;;
  let prompt := strip (join " " (st_parts st)) in
  Ok (prompt, st_service st, st_since_days st).

(** ** The context fetcher *)

Definition opt_truthy (s : option string) : bool :=
  match s with
  | Some s' => negb (String.eqb s' "")
  | None => false
  end.

(** The two conditions [fetch_logs] may put in its [where] list. *)
Definition ts_condition (start_ts : string) : string :=
  ASK_TS_COLUMN ++ " >= TIMESTAMP('" ++ start_ts ++ "')".

Definition service_condition : string :=
  "LOWER(" ++ ASK_SERVICE_COLUMN ++ ") = LOWER(@service)".

(** The list [where] of [fetch_logs]. *)
Definition fetch_where (service : option string) (start_ts : string) : list string :=
  let where_ := [ts_condition start_ts] in
  if opt_truthy service then where_ ++ [service_condition] else where_.

Definition indent : string := "            ".

(** The f-string [sql] of [fetch_logs]. *)
Definition fetch_sql (project where_clause : string) : string :=
  let table_id := "`" ++ project ++ "." ++ BQ_DATASET ++ "." ++ BQ_TABLE ++ "`" in
  nl ++ indent ++ "SELECT *" ++
  nl ++ indent ++ "FROM " ++ table_id ++
  nl ++ indent ++ "WHERE " ++ where_clause ++
  nl ++ indent ++ "ORDER BY " ++ ASK_TS_COLUMN ++ " DESC" ++
  nl ++ indent ++ "LIMIT " ++ str_of_Z ASK_MAX_ROWS ++
  nl ++ "        ".

(** What [fetch_logs] passes to [client.query]. *)
Definition fetch_query (project : string) (service : option string) (start_ts : string)
  : Query :=
  let where_clause := join " AND " (fetch_where service start_ts) in
  mk_Query (fetch_sql project where_clause)
    (match service with
     | Some s => if String.eqb s "" then None else Some [("service", "STRING", s)]
     | None => None
     end).

(** [bigquery.QueryJobConfig(query_parameters=...)].  The library sets the
    property by iterating over the parameters to put them in their API form,
    so that [None] raises [TypeError]. *)
Definition QueryJobConfig (query_parameters : option (list (string * string * string)))
  : result (option (list (string * string * string))) :=
  match query_parameters with
  | Some ps => Ok (Some ps)
  | None => Raise TypeError
  end.

(** The body of the [try] block of [fetch_logs]. *)
Definition fetch_try (project : string) (service : option string) (since_days : Z)
  : result (list row) :=
  client <- bigquery_Client project ;;
  start_ts <- utc_days_ago_iso since_days ;;
  let q := fetch_query project service start_ts in
  job_config <- QueryJobConfig (q_parameters q) ;;
  client (mk_Query (q_sql q) job_config).

Definition fetch_logs (service : option string) (since_days : Z) : result (list row) :=
  match PROJECT with
  | None => Ok []
  | Some project =>
      if String.eqb project "" then Ok []
      else
        match fetch_try project service since_days with
        | Ok rows => Ok rows
        | Raise _ => Ok []
        end
  end.

(** ** The answer composer *)

Definition context_rows (rows : list row) : list row :=
  firstn (Nat.min (List.length rows) 50) rows.

Definition context_snippets (rows : list row) : string :=
  match rows with
  | [] => "[]"
  | _ => json_dumps (VList (map VDict (context_rows rows)))
  end.

Definition sys_instruction : string :=
  "You are a reliability assistant. Use the provided recent logs to answer the user's question. "
  ++ "Cite services, time ranges, and themes if visible; be concise and actionable.".

Definition llm_prompt (user_prompt : string) (rows : list row) : string :=
  sys_instruction ++ nl ++ nl ++ "Recent rows JSON (truncated):" ++ nl
  ++ context_snippets rows ++ nl ++ nl ++ "User question:" ++ nl ++ user_prompt.

Definition vertex_error_text (e : exn) : string :=
  "(Vertex error: " ++ str_of_exn e ++ ")".

Definition fallback_text (user_prompt : string) (rows : list row) : string :=
  "(Vertex not configured) Based on recent rows (" ++ str_of_nat (List.length rows)
  ++ " found), no major anomalies detected. Question: " ++ user_prompt.

Definition llm_answer (user_prompt : string) (rows : list row) : result string :=
  let prompt := llm_prompt user_prompt rows in
  match _gen with
  | Some generate_content =>
      match generate_content prompt with
      | Ok text => Ok text
      | Raise e => Ok (vertex_error_text e)
      end
  | None => Ok (fallback_text user_prompt rows)
  end.

(** ** The alert formatter *)

Definition severity_table : list (string * string) :=
  [("LOW", "🟡"); ("MEDIUM", "🟠"); ("HIGH", "🔴"); ("CRITICAL", "🚨")].

Fixpoint table_get (t : list (string * string)) (k default : string) : string :=
  match t with
  | [] => default
  | (k', v) :: t' => if String.eqb k' k then v else table_get t' k default
  end.

Definition severity_emoji (alert : ErrorAlert) : string :=
  table_get severity_table (str_upper (severity alert)) "⚪".

Definition format_error_notification (alert : ErrorAlert) : string :=
  let timestamp_ :=
    match timestamp alert with
    | Some t => if String.eqb t "" then utc_now_iso else t
    | None => utc_now_iso
    end in
  let message0 :=
    severity_emoji alert ++ " **Production Error Alert**" ++ nl ++ nl
    ++ "**Service:** " ++ service alert ++ nl
    ++ "**Error:** " ++ error_type alert ++ nl
    ++ "**Message:** " ++ message alert ++ nl
    ++ "**Severity:** " ++ severity alert ++ nl
    ++ "**Time:** " ++ timestamp_ ++ nl
    ++ "**Environment:** " ++ environment alert in
  let message1 :=
    match affected_users alert with
    | Some n =>
        if n =? 0 then message0
        else message0 ++ nl ++ "**Affected Users:** ~" ++ str_of_Z n
    | None => message0
    end in
  let message2 :=
    match stack_trace alert with
    | Some st =>
        if String.eqb st "" then message1
        else
          let truncated_trace :=
            if (200 <? py_len st)%nat then py_take 200 st ++ "..." else st in
          message1 ++ nl ++ "**Stack Trace:** ```" ++ truncated_trace ++ "```"
    | None => message1
    end in
  let message3 :=
    match recent_logs alert with
    | Some ((_ :: _) as logs) =>
        message2 ++ nl ++ "**Recent Logs:** " ++ str_of_nat (List.length logs)
        ++ " entries available"
    | _ => message2
    end in
  message3 ++ nl ++ nl ++ "💬 *Type `/ask <question>` to investigate this error*".

(** ** The chat router *)

Definition usage_slash : string :=
  "Usage: `/ask <question> [service:... since:N]`" ++ nl
  ++ "Example: `/ask why is auth failing? service:user-auth since:1`".

Definition usage_mention : string :=
  "Usage: `@Prod Alert AI <question>` or `/ask <question>`" ++ nl
  ++ "Example: `@Prod Alert AI why is auth failing?`".

Definition greeting : string :=
  "Hey! I monitor production errors and can answer questions." ++ nl
  ++ "Type `/ask <question>` or mention me with `@Prod Alert AI <question>`.".

Definition default_help : string :=
  "I monitor production errors. Type `/ask <question>` or mention me to investigate.".

(** The dict [{"text": response_text, "thread": {"name": thread_name} if
    thread_name else None}] each pipeline branch returns. *)
Definition response_dict (response_text : string) (thread_name : value) : value :=
  VDict [("text", VStr response_text);
         ("thread", if truthy thread_name
                    then VDict [("name", thread_name)] else VNone)].

(** Parse, fetch, answer and build the reply: the block the three pipeline
    branches of [chat_endpoint] repeat. *)
Definition ask_reply (text : string) (thread_name : value) : result value :=
  parsed <- parse_prompt_and_filters text ;;
  let '(user_prompt, service_, since_days) := parsed in
  rows <- fetch_logs service_ since_days ;;
  answer <- llm_answer user_prompt rows ;;
  let response_text := "**Q:** " ++ user_prompt ++ nl ++ "**A:** " ++ answer in
  let response_text :=
    match rows with
    | [] => response_text
    | _ => response_text ++ nl ++ nl ++ "*Based on "
           ++ str_of_nat (List.length rows) ++ " recent alerts*"
    end in
  Ok (response_dict response_text thread_name).

(** [message.get("thread", {}).get("name")]. *)
Definition message_thread_name (message_ : value) : result value :=
  thread <- py_get message_ "thread" (VDict []) ;;
  py_get thread "name" VNone.

(** The body of the [appCommandPayload] and [messagePayload] branches, which
    differ in the usage text only. *)
Definition payload_reply (usage : string) (payload : value) : result value :=
  message_ <- py_get payload "message" (VDict []) ;;
  arg <- py_get message_ "argumentText" (VStr "") ;;
  text <- py_strip arg ;;
  thread_name <- message_thread_name message_ ;;
  if String.eqb text "" then Ok (VDict [("text", VStr usage)])
  else ask_reply text thread_name.

(** [event.get("chat") and event.get("chat", {}).get(key)]. *)
Definition chat_payload (event : value) (key : string) : result value :=
  chat <- py_get event "chat" VNone ;;
  if truthy chat then
    chat' <- py_get event "chat" (VDict []) ;;
    py_get chat' key VNone
  else Ok chat.

Definition chat_endpoint (request_json : result value) : result value :=
  match request_json with
  | Raise _ => Raise (HTTPException 400 "Invalid JSON")
  | Ok event =>
      slash <- chat_payload event "appCommandPayload" ;;
      if truthy slash then
        chat <- py_item event "chat" ;;
        payload <- py_item chat "appCommandPayload" ;;
        payload_reply usage_slash payload
      else
        mention <- chat_payload event "messagePayload" ;;
        if truthy mention then
          chat <- py_item event "chat" ;;
          payload <- py_item chat "messagePayload" ;;
          payload_reply usage_mention payload
        else
          msg <- py_get event "message" VNone ;;
          thread_name <-
            (if truthy msg then
               msg' <- py_get event "message" (VDict []) ;;
               message_thread_name msg'
             else Ok VNone) ;;
          etype <- py_get event "type" VNone ;;
          if eq_str etype "ADDED_TO_SPACE" then
            Ok (VDict [("text", VStr greeting)])
          else if eq_str etype "MESSAGE" then
            msg1 <- py_get event "message" (VDict []) ;;
            arg <- py_get msg1 "argumentText" VNone ;;
            raw <-
              (if truthy arg then Ok arg
               else
                 msg2 <- py_get event "message" (VDict []) ;;
                 txt <- py_get msg2 "text" VNone ;;
                 Ok (py_or txt (VStr ""))) ;;
            text <- py_strip raw ;;
            if String.eqb text "" then Ok (VDict [("text", VStr usage_slash)])
            else ask_reply text thread_name
          else Ok (VDict [("text", VStr default_help)])
  end.

(** ** The alert path *)

Definition _reply_text (text : string) (thread_name : option string) : value :=
  let response := [("text", VStr text)] in
  match thread_name with
  | Some n =>
      if String.eqb n "" then VDict response
      else VDict (response ++ [("thread", VDict [("name", VStr n)])])
  | None => VDict response
  end.

(** [header_tok] is [request.headers.get("X-Goog-Chat-Token")]. *)
Definition _check_token (header_tok : option string) (event : value) : result unit :=
  body_tok <- py_get event "token" VNone ;;
  if negb (String.eqb VERIFY_TOKEN "")
     && (negb (match header_tok with
               | Some h => String.eqb h VERIFY_TOKEN
               | None => false
               end)
         && negb (eq_str body_tok VERIFY_TOKEN))
  then Raise (HTTPException 401 "Bad token")
  else Ok tt.

(** [response.raise_for_status()] raises for the codes 400 to 599. *)
Definition is_http_error (status_code : Z) : bool :=
  (400 <=? status_code) && (status_code <? 600).

(** Only a [RequestException] is caught, and [raise_for_status] raises one. *)
Definition send_chat_notification (message_ : string) : io bool :=
  if String.eqb CHAT_WEBHOOK_URL "" then ret false
  else
    let body := VDict [("text", VStr message_)] in
    _ <~ emit (PostCall CHAT_WEBHOOK_URL body 10) ;;
    match requests_post CHAT_WEBHOOK_URL body 10 with
    | Responded status_code =>
        if is_http_error status_code then ret false else ret true
    | RequestException _ => ret false
    | PostRaised e => lift (Raise e)
    end.

(** The dict [row] of [store_alert_in_bigquery]. *)
Definition alert_row (alert : ErrorAlert) : row :=
  [("ts", VStr (match timestamp alert with
                | Some t => if String.eqb t "" then utc_now_store else t
                | None => utc_now_store
                end));
   ("service", VStr (service alert));
   ("policy", VStr (error_type alert));
   ("state", VStr "open");
   ("summary", VStr (message alert));
   ("severity", VStr (severity alert));
   ("error_type", VStr (error_type alert));
   ("resource", VStr (service alert));
   ("url", VNone)].

Definition store_alert_in_bigquery (alert : ErrorAlert) : io bool :=
  match PROJECT with
  | None => ret false
  | Some project =>
      if String.eqb project "" then ret false
      else
        io_catch
          (_ <~ emit (ClientCall project) ;;
           _ <~ lift (bigquery_Client project) ;;
           let table_id := project ++ "." ++ BQ_DATASET ++ "." ++ BQ_TABLE in
           let row_ := alert_row alert in
           _ <~ emit (InsertCall table_id [row_]) ;;
           errors <~ lift (insert_rows_json table_id [row_]) ;;
           match errors with
           | [] => ret true
           | _ => ret false
           end)
          (fun _ => ret false)
  end.

Definition receive_alert (alert : ErrorAlert) : io value :=
  let notification_message := format_error_notification alert in
  notification_sent <~ send_chat_notification notification_message ;;
  bigquery_stored <~ store_alert_in_bigquery alert ;;
  ret (VDict [("status", VStr "processed");
              ("service", VStr (service alert));
              ("notification_sent", VBool notification_sent);
              ("bigquery_stored", VBool bigquery_stored);
              ("timestamp", VStr utc_now_response)]).

(** ** Observers used in the statements *)

Fixpoint no_space (s : string) : bool :=
  match s with
  | EmptyString => true
  | String c r => negb (is_space c) && no_space r
  end.

(** What [split] yields: a non-empty run without blanks. *)
Definition good_token (t : string) : Prop := t <> "" /\ no_space t = true.

(** The tokens the loop of [parse_prompt_and_filters] takes as filters. *)
Definition is_filter (token : string) : bool :=
  startswith (lower token) "service:" || startswith (lower token) "since:".

Fixpoint has_colon (s : string) : bool :=
  match s with
  | EmptyString => false
  | String c r => Ascii.eqb c ":" || has_colon r
  end.

(** The tokens of the text that [parse_prompt_and_filters] keeps. *)
Definition retained (text : string) : list string :=
  filter (fun t => negb (is_filter t)) (split text).

Fixpoint all_space (s : string) : bool :=
  match s with
  | EmptyString => true
  | String c r => is_space c && all_space r
  end.

(** What is known of the runtime's [str.upper]: on ASCII text it is [upper]. *)
Definition upper_on_ascii (str_upper : string -> string) : Prop :=
  forall s, is_ascii s = true -> str_upper s = upper s.

Definition is_service_token (token : string) : bool :=
  startswith (lower token) "service:".

Definition is_since_token (token : string) : bool :=
  startswith (lower token) "since:".

(** The JSON body [send_chat_notification] posts. *)
Definition post_body (message_ : string) : value := VDict [("text", VStr message_)].

Definition get_or_none (d : list (string * value)) (k : string) : value :=
  match dict_get d k with Some v => v | None => VNone end.

(** The event has no truthy [chat.appCommandPayload] and no truthy
    [chat.messagePayload], so [chat_endpoint] takes neither payload branch. *)
Definition no_chat_payload (fields : list (string * value)) : bool :=
  match get_or_none fields "chat" with
  | VDict cf =>
      negb (truthy (get_or_none cf "appCommandPayload"))
      && negb (truthy (get_or_none cf "messagePayload"))
  | chat => negb (truthy chat)
  end.

(** The [message] of the event is missing or falsy, or it is a dict whose
    [thread], when present, is a dict: reading the thread name does not
    raise. *)
Definition thread_readable (fields : list (string * value)) : bool :=
  match get_or_none fields "message" with
  | VDict mf =>
      match dict_get mf "thread" with
      | None | Some (VDict _) => true
      | Some _ => false
      end
  | message_ => negb (truthy message_)
  end.

(** The thread name [chat_endpoint] reads on the branch it takes for the
    event: from the message of the payload on the two payload branches, from
    the message of the event otherwise. *)
Definition event_thread_name (event : value) : result value :=
  slash <- chat_payload event "appCommandPayload" ;;
  if truthy slash then
    chat <- py_item event "chat" ;;
    payload <- py_item chat "appCommandPayload" ;;
    message_ <- py_get payload "message" (VDict []) ;;
    message_thread_name message_
  else
    mention <- chat_payload event "messagePayload" ;;
    if truthy mention then
      chat <- py_item event "chat" ;;
      payload <- py_item chat "messagePayload" ;;
      message_ <- py_get payload "message" (VDict []) ;;
      message_thread_name message_
    else
      msg <- py_get event "message" VNone ;;
      if truthy msg then
        msg' <- py_get event "message" (VDict []) ;;
        message_thread_name msg'
      else Ok VNone.

(** What [chat_endpoint] makes of an event before it calls a collaborator:
    the usage text of a branch, the greeting, the help text, or a question
    for the pipeline, with the usage text of its branch and the thread name
    read on that branch. *)
Inductive route : Type :=
| Usage (usage : string)
| Greeting
| Help
| Ask (usage text : string) (thread_name : value).

(** The route of the [appCommandPayload] and [messagePayload] branches. *)
Definition payload_route (usage : string) (payload : value) : result route :=
  message_ <- py_get payload "message" (VDict []) ;;
  arg <- py_get message_ "argumentText" (VStr "") ;;
  text <- py_strip arg ;;
  thread_name <- message_thread_name message_ ;;
  if String.eqb text "" then Ok (Usage usage)
  else Ok (Ask usage text thread_name).

(** The route of an event, branch by branch as [chat_endpoint] tests them. *)
Definition event_route (event : value) : result route :=
  slash <- chat_payload event "appCommandPayload" ;;
  if truthy slash then
    chat <- py_item event "chat" ;;
    payload <- py_item chat "appCommandPayload" ;;
    payload_route usage_slash payload
  else
    mention <- chat_payload event "messagePayload" ;;
    if truthy mention then
      chat <- py_item event "chat" ;;
      payload <- py_item chat "messagePayload" ;;
      payload_route usage_mention payload
    else
      msg <- py_get event "message" VNone ;;
      thread_name <-
        (if truthy msg then
           msg' <- py_get event "message" (VDict []) ;;
           message_thread_name msg'
         else Ok VNone) ;;
      etype <- py_get event "type" VNone ;;
      if eq_str etype "ADDED_TO_SPACE" then Ok Greeting
      else if eq_str etype "MESSAGE" then
        msg1 <- py_get event "message" (VDict []) ;;
        arg <- py_get msg1 "argumentText" VNone ;;
        raw <-
          (if truthy arg then Ok arg
           else
             msg2 <- py_get event "message" (VDict []) ;;
             txt <- py_get msg2 "text" VNone ;;
             Ok (py_or txt (VStr ""))) ;;
        text <- py_strip raw ;;
        if String.eqb text "" then Ok (Usage usage_slash)
        else Ok (Ask usage_slash text thread_name)
      else Ok Help.

(** The replies that hold a text and nothing else. *)
Definition text_only (text : string) : value := VDict [("text", VStr text)].

(** The [thread] entry of a reply, [None] when the reply has none. *)
Definition reply_thread (resp : value) : option value :=
  match resp with
  | VDict fields => dict_get fields "thread"
  | _ => None
  end.

(** The thread name of an event that has no payload branch to take: from
    its [message] when that is a non-empty object, [None] if not. *)
Definition event_thread_name_plain (fields : list (string * value)) : value :=
  match get_or_none fields "message" with
  | VDict (kv :: mf) =>
      match dict_get (kv :: mf) "thread" with
      | Some (VDict tf) => get_or_none tf "name"
      | _ => VNone
      end
  | _ => VNone
  end.

Definition is_dict (v : value) : bool :=
  match v with
  | VDict _ => true
  | _ => false
  end.

(** The payload branch [chat_endpoint] takes for the [chat] entry of an
    event, with the usage text of the branch: the slash command first, then
    the mention. *)
Definition routed_payload (cf : list (string * value)) : option (string * value) :=
  if truthy (get_or_none cf "appCommandPayload")
  then Some (usage_slash, get_or_none cf "appCommandPayload")
  else if truthy (get_or_none cf "messagePayload")
  then Some (usage_mention, get_or_none cf "messagePayload")
  else None.

(** [message.get("argumentText") or message.get("text") or ""]. *)
Definition message_text (mf : list (string * value)) : value :=
  py_or (py_or (get_or_none mf "argumentText") (get_or_none mf "text")) (VStr "").

(** The alert with another stack trace. *)
Definition with_stack_trace (alert : ErrorAlert) (st : option string) : ErrorAlert :=
  mk_ErrorAlert (service alert) (error_type alert) (message alert) (timestamp alert)
    st (affected_users alert) (severity alert) (recent_logs alert)
    (environment alert).

(** The alert with another count of affected users, and with other logs. *)
Definition with_affected_users (alert : ErrorAlert) (n : option Z) : ErrorAlert :=
  mk_ErrorAlert (service alert) (error_type alert) (message alert) (timestamp alert)
    (stack_trace alert) n (severity alert) (recent_logs alert) (environment alert).

Definition with_recent_logs (alert : ErrorAlert) (logs : option (list value))
  : ErrorAlert :=
  mk_ErrorAlert (service alert) (error_type alert) (message alert) (timestamp alert)
    (stack_trace alert) (affected_users alert) (severity alert) logs
    (environment alert).

(** The stack trace as the notification shows it. *)
Definition shown_trace (st : string) : string :=
  if (200 <? py_len st)%nat then py_take 200 st ++ "..." else st.

(** ** Sample collaborators and inputs *)

(** A client that answers with one row, which holds the query it was given. *)
Definition echo_client : Client :=
  fun q =>
    Ok [[("sql", VStr (q_sql q));
         ("parameters",
          match q_parameters q with
          | Some ps => VList (map (fun '(n, t, v) => VList [VStr n; VStr t; VStr v]) ps)
          | None => VNone
          end)]].

(** A client whose query fails. *)
Definition failing_client : Client := fun _ => Raise (OtherError "403 Forbidden").

Definition sample_start_ts : string := "2026-01-01T00:00:00+00:00".

Definition critical_row : row :=
  [("service", VStr "auth"); ("severity", VStr "CRITICAL"); ("state", VStr "open")].

Definition sample_alert : ErrorAlert :=
  mk_ErrorAlert "auth" "Timeout" "db down" None None (Some 500) "critical" None
    "production".

(** [{"type": "ADDED_TO_SPACE", "space": {"name": "spaces/A"}}]. *)
Definition added_event : list (string * value) :=
  [("type", VStr "ADDED_TO_SPACE"); ("space", VDict [("name", VStr "spaces/A")])].

(** An ADDED_TO_SPACE event that also carries a slash-command payload. *)
Definition added_event_with_payload : value :=
  VDict [("type", VStr "ADDED_TO_SPACE");
         ("chat", VDict [("appCommandPayload",
                          VDict [("message", VDict [("argumentText", VStr "")])])])].

(** An ADDED_TO_SPACE event whose [message] is a string. *)
Definition added_event_with_text_message : value :=
  VDict [("type", VStr "ADDED_TO_SPACE"); ("message", VStr "hello")].

(** An ADDED_TO_SPACE event whose [chat] is a string. *)
Definition added_event_with_text_chat : value :=
  VDict [("type", VStr "ADDED_TO_SPACE"); ("chat", VStr "x")].

(** An ADDED_TO_SPACE event sent from a thread. *)
Definition added_event_in_thread : value :=
  VDict [("type", VStr "ADDED_TO_SPACE");
         ("message", VDict [("thread", VDict [("name", VStr "spaces/A/threads/B")])])].

(** A MESSAGE event with a question and no thread. *)
Definition message_event_no_thread : value :=
  VDict [("type", VStr "MESSAGE"); ("message", VDict [("text", VStr "ping")])].

(** A MESSAGE event with a question, sent from a thread. *)
Definition message_event_in_thread : value :=
  VDict [("type", VStr "MESSAGE");
         ("message", VDict [("text", VStr "ping");
                            ("thread", VDict [("name", VStr "spaces/A/threads/B")])])].

(** A webhook that answers with status 500, and a post that raises outside
    the [requests] exceptions. *)
Definition post_500 : string -> value -> Z -> post_outcome :=
  fun _ _ _ => Responded 500.

Definition post_crash : string -> value -> Z -> post_outcome :=
  fun _ _ _ => PostRaised TypeError.

(** An insert without errors. *)
Definition insert_ok : string -> list row -> result (list value) :=
  fun _ _ => Ok [].

(** The [chat] entry of an event with both payloads. *)
Definition both_payloads : list (string * value) :=
  [("messagePayload", VDict [("message", VDict [("argumentText", VStr "hello")])]);
   ("appCommandPayload", VDict [("message", VDict [("argumentText", VStr "")])])].

(** An event of a type the router does not know. *)
Definition removed_event : list (string * value) :=
  [("type", VStr "REMOVED_FROM_SPACE")].

(** A stack trace of 101 accented letters: 101 code points in 202 bytes. *)
Fixpoint repeat_string (n : nat) (s : string) : string :=
  match n with
  | O => ""
  | S n' => s ++ repeat_string n' s
  end.

Definition accented_trace : string := repeat_string 101 "é".

(** The [message] of a MESSAGE event with both texts. *)
Definition message_with_both_texts : list (string * value) :=
  [("text", VStr "@bot why? service:auth"); ("argumentText", VStr " why? service:auth ")].

(** * Properties *)

(** ** Strings *)

Lemma append_empty_r (s : string) : s ++ "" = s.
Proof. induction s as [|c r IH]; simpl; [reflexivity | now rewrite IH]. Qed.

Lemma append_assoc (a b c : string) : (a ++ b) ++ c = a ++ b ++ c.
Proof. induction a as [|x a IH]; simpl; [reflexivity | now rewrite IH]. Qed.

Lemma prefix_append (x b : string) : String.prefix x (x ++ b) = true.
Proof.
  induction x as [|c x IH]; simpl; [now destruct b|].
  destruct (ascii_dec c c); [exact IH | congruence].
Qed.

Lemma contains_prefix (t x : string) : String.prefix x t = true -> contains t x = true.
Proof. intros H. destruct t; cbn [contains]; now rewrite H. Qed.

Lemma contains_append_l (a t x : string) :
  contains t x = true -> contains (a ++ t) x = true.
Proof.
  intros H. induction a as [|c a IH]; [exact H|].
  cbn [append contains]. rewrite IH. apply orb_true_r.
Qed.

(** A string contains each piece it is assembled from. *)
Lemma contains_middle (a x b : string) : contains (a ++ x ++ b) x = true.
Proof. apply contains_append_l, contains_prefix, prefix_append. Qed.

Lemma contains_end (a x : string) : contains (a ++ x) x = true.
Proof. rewrite <- (append_empty_r x) at 1. apply contains_middle. Qed.

Lemma prefix_append_l (x a b : string) :
  String.prefix x a = true -> String.prefix x (a ++ b) = true.
Proof.
  revert a; induction x as [|c x IH]; intros a H; [now destruct (a ++ b)|].
  destruct a as [|d a]; [discriminate|]. simpl in *.
  destruct (ascii_dec c d); [now apply IH | discriminate].
Qed.

Lemma prefix_refl (x : string) : String.prefix x x = true.
Proof. rewrite <- (append_empty_r x) at 2. apply prefix_append. Qed.

Lemma contains_append_r (a b x : string) :
  contains a x = true -> contains (a ++ b) x = true.
Proof.
  induction a as [|c a IH]; cbn [contains append]; intros H.
  - rewrite orb_false_r in H. apply contains_prefix.
    now apply (prefix_append_l x "" b).
  - apply orb_true_iff in H as [H|H].
    + apply (prefix_append_l x (String c a) b) in H.
      cbn [append] in H. now rewrite H.
    + rewrite (IH H). apply orb_true_r.
Qed.

Lemma lower_char_colon (c : ascii) :
  Ascii.eqb (lower_char c) ":" = Ascii.eqb c ":".
Proof. destruct c as [[] [] [] [] [] [] [] []]; reflexivity. Qed.

Lemma has_colon_lower (s : string) : has_colon (lower s) = has_colon s.
Proof.
  unfold lower. induction s as [|c r IH]; simpl; [reflexivity|].
  now rewrite lower_char_colon, IH.
Qed.

Lemma has_colon_prefix (p s : string) :
  String.prefix p s = true -> has_colon p = true -> has_colon s = true.
Proof.
  revert s; induction p as [|c p IH]; intros s Hp Hc; [discriminate|].
  destruct s as [|d s]; simpl in Hp, Hc; [discriminate|].
  destruct (ascii_dec c d) as [->|]; [|discriminate].
  simpl. apply orb_true_iff in Hc as [Hc|Hc].
  - now rewrite Hc.
  - rewrite (IH s Hp Hc). apply orb_true_r.
Qed.

Lemma split_once_colon (s : string) :
  has_colon s = true -> exists a b, split_once ":" s = [a; b].
Proof.
  induction s as [|c r IH]; simpl; [discriminate|].
  destruct (Ascii.eqb c ":") eqn:E; simpl; intros H.
  - now exists "", r.
  - destruct (IH H) as (a & b & ->). now exists (String c a), b.
Qed.

Lemma startswith_value (token p : string) :
  startswith (lower token) p = true -> has_colon p = true ->
  exists v, index (split_once ":" token) 1 = Ok v.
Proof.
  intros Hp Hc. unfold startswith in Hp.
  pose proof (has_colon_prefix _ _ Hp Hc) as H.
  rewrite has_colon_lower in H.
  destruct (split_once_colon _ H) as (a & b & ->). now exists b.
Qed.

Lemma py_int_raises (lim : nat) (s : string) (e : exn) :
  py_int lim s = Raise e -> e = ValueError.
Proof.
  unfold py_int.
  destruct (match strip s with
            | String "-" r => (true, r)
            | String "+" r => (false, r)
            | _ => (false, strip s)
            end) as [neg body].
  destruct body as [|c r]; [now intros [= <-]|].
  destruct (Ascii.eqb c "_"); [now intros [= <-]|].
  destruct (int_digits false 0 0 (String c r)) as [[v n]|]; [|now intros [= <-]].
  destruct ((640 <? n) && (0 <? lim) && (lim <? n))%nat; [now intros [= <-]|discriminate].
Qed.

(** ** [split], [join] and [strip] *)

Lemma split_good (s : string) : Forall good_token (split s).
Proof.
  induction s as [|c r IH]; simpl; [constructor|].
  destruct (is_space c) eqn:Ec; [exact IH|].
  assert (Hc : good_token (String c "")).
  { split; [discriminate | simpl; now rewrite Ec]. }
  destruct (head_is_space r); [now constructor|].
  destruct (split r) as [|t ts]; [now constructor|].
  inversion IH as [|? ? [_ Ht] Hts]; subst.
  constructor; [|exact Hts].
  split; [discriminate | simpl; now rewrite Ec, Ht].
Qed.

Lemma split_app_token (t s : string) :
  good_token t -> head_is_space s = true \/ s = "" ->
  split (t ++ s) = t :: split s.
Proof.
  intros [Hne Hns] Hs. induction t as [|c t IH]; [congruence|].
  simpl in Hns. apply andb_true_iff in Hns as [Hc Ht].
  apply negb_true_iff in Hc. simpl. rewrite Hc.
  destruct t as [|c' t'].
  - simpl. destruct Hs as [-> | ->]; reflexivity.
  - rewrite IH by (discriminate || assumption).
    simpl in Ht. apply andb_true_iff in Ht as [Hc' _].
    apply negb_true_iff in Hc'. simpl. now rewrite Hc'.
Qed.

Lemma split_join (toks : list string) :
  Forall good_token toks -> split (join " " toks) = toks.
Proof.
  induction 1 as [|t ts Ht Hts IH]; [reflexivity|].
  destruct ts as [|t2 ts].
  - simpl. rewrite <- (append_empty_r t) at 1.
    rewrite split_app_token by auto. reflexivity.
  - change (join " " (t :: t2 :: ts)) with (t ++ " " ++ join " " (t2 :: ts)).
    rewrite split_app_token by (auto; now left).
    change (split (" " ++ join " " (t2 :: ts))) with (split (join " " (t2 :: ts))).
    now rewrite IH.
Qed.

Lemma lstrip_token (t s : string) : good_token t -> lstrip (t ++ s) = t ++ s.
Proof.
  intros [Hne Hns]. destruct t as [|c t]; [congruence|].
  simpl in *. apply andb_true_iff in Hns as [Hc _].
  apply negb_true_iff in Hc. now rewrite Hc.
Qed.

Lemma rstrip_token (t : string) : good_token t -> rstrip t = t.
Proof.
  intros [Hne Hns]. induction t as [|c t IH]; [congruence|].
  simpl in Hns. apply andb_true_iff in Hns as [Hc Ht].
  apply negb_true_iff in Hc. simpl.
  destruct t as [|c' t']; [simpl; now rewrite Hc|].
  rewrite IH by (discriminate || assumption). reflexivity.
Qed.

Lemma rstrip_app_token (s t : string) : good_token t -> rstrip (s ++ t) = s ++ t.
Proof.
  intros Ht. induction s as [|c s IH]; [now apply rstrip_token|].
  simpl. rewrite IH.
  destruct (s ++ t) eqn:E; [|reflexivity].
  destruct Ht as [Hne _]. destruct s; simpl in E; congruence.
Qed.

Lemma join_last (t : string) (ts : list string) :
  Forall good_token (t :: ts) ->
  exists s u, join " " (t :: ts) = s ++ u /\ good_token u.
Proof.
  revert t; induction ts as [|t2 ts IH]; intros t H.
  - exists "", t. inversion H; subst. now split.
  - inversion H as [|? ? _ H2]; subst.
    destruct (IH t2 H2) as (s & u & E & Hu).
    exists (t ++ " " ++ s), u. split; [|exact Hu].
    change (join " " (t :: t2 :: ts)) with (t ++ " " ++ join " " (t2 :: ts)).
    rewrite E. now rewrite !append_assoc.
Qed.

Lemma strip_join (toks : list string) :
  Forall good_token toks -> strip (join " " toks) = join " " toks.
Proof.
  intros H. destruct toks as [|t ts]; [reflexivity|].
  unfold strip.
  assert (lstrip (join " " (t :: ts)) = join " " (t :: ts)) as ->.
  { inversion H; subst. destruct ts as [|t2 ts].
    - simpl. rewrite <- (append_empty_r t). now apply lstrip_token.
    - now apply lstrip_token. }
  destruct (join_last t ts H) as (s & u & -> & Hu).
  now apply rstrip_app_token.
Qed.

(** ** The filter parser *)

Lemma parse_token_plain (st : parse_state) (token : string) :
  is_filter token = false ->
  parse_token st token
  = Ok (mk_parse_state (st_service st) (st_since_days st) (st_parts st ++ [token])).
Proof.
  unfold is_filter, parse_token. intros H.
  apply orb_false_iff in H as [-> ->]. reflexivity.
Qed.

(** A turn of the loop never raises; it keeps a non-filter token, and it
    leaves [since_days] alone or sets it to a value of at least 1. *)
Lemma parse_token_total (st : parse_state) (token : string) :
  exists st',
    parse_token st token = Ok st'
    /\ st_parts st' = (st_parts st ++ (if is_filter token then [] else [token]))%list
    /\ (st_since_days st' = st_since_days st \/ 1 <= st_since_days st').
Proof.
  destruct (is_filter token) eqn:F.
  2:{ rewrite parse_token_plain by exact F. eexists; repeat split; auto. }
  unfold is_filter in F. unfold parse_token.
  destruct (startswith (lower token) "service:") eqn:E1.
  - destruct (startswith_value _ _ E1 eq_refl) as [v ->]. simpl.
    eexists; repeat split; simpl; auto using app_nil_r.
  - simpl in F. rewrite F.
    destruct (startswith_value _ _ F eq_refl) as [v ->]. simpl.
    destruct (py_int int_max_str_digits v) as [n|e] eqn:En; simpl.
    + eexists; repeat split; simpl; auto using app_nil_r. right. lia.
    + rewrite (py_int_raises _ _ _ En).
      eexists; repeat split; auto using app_nil_r.
Qed.

Lemma parse_loop_total (tokens : list string) (st : parse_state) :
  exists st',
    parse_loop st tokens = Ok st'
    /\ st_parts st' = (st_parts st ++ filter (fun t => negb (is_filter t)) tokens)%list
    /\ (st_since_days st' = st_since_days st \/ 1 <= st_since_days st').
Proof.
  revert st; induction tokens as [|t ts IH]; intros st; simpl.
  - exists st. repeat split; auto using app_nil_r.
  - destruct (parse_token_total st t) as (st1 & -> & P1 & D1). simpl.
    destruct (IH st1) as (st2 & -> & P2 & D2).
    exists st2. split; [reflexivity|]. split.
    + rewrite P2, P1. destruct (is_filter t); simpl;
        now rewrite <- app_assoc.
    + destruct D2 as [D2|D2]; [|now right]. rewrite D2. exact D1.
Qed.

Lemma parse_loop_plain (tokens : list string) (st : parse_state) :
  forallb (fun t => negb (is_filter t)) tokens = true ->
  parse_loop st tokens
  = Ok (mk_parse_state (st_service st) (st_since_days st) (st_parts st ++ tokens)).
Proof.
  revert st; induction tokens as [|t ts IH]; intros st H; simpl in *.
  - rewrite app_nil_r. now destruct st.
  - apply andb_true_iff in H as [Ht Hts]. apply negb_true_iff in Ht.
    rewrite parse_token_plain by exact Ht. simpl.
    rewrite IH by exact Hts. simpl. now rewrite <- app_assoc.
Qed.

(** The question [parse_prompt_and_filters] returns is the retained tokens
    joined by single spaces. *)
Lemma parse_shape (text : string) :
  exists service_ since_days,
    parse_prompt_and_filters text
    = Ok (join " " (filter (fun t => negb (is_filter t)) (split text)),
          service_, since_days)
    /\ (since_days = ASK_DEFAULT_SINCE_DAYS \/ 1 <= since_days).
Proof.
  unfold parse_prompt_and_filters.
  destruct (parse_loop_total (split text)
              (mk_parse_state None ASK_DEFAULT_SINCE_DAYS []))
    as (st & -> & P & D).
  simpl in *. rewrite P.
  exists (st_service st), (st_since_days st). split; [|exact D].
  rewrite strip_join; [reflexivity|].
  apply incl_Forall with (l1 := split text); [|apply split_good].
  intros t Ht. now apply filter_In in Ht.
Qed.

Lemma parse_token_keeps_since (st st' : parse_state) (token : string) :
  parse_token st token = Ok st' -> is_since_token token = false ->
  st_since_days st' = st_since_days st.
Proof.
  unfold parse_token, is_since_token. intros H N. rewrite N in H.
  destruct (startswith (lower token) "service:"); [|now injection H as <-].
  destruct (index (split_once ":" token) 1); simpl in H; [|discriminate].
  now injection H as <-.
Qed.

Lemma parse_loop_keeps_since (tokens : list string) (st st' : parse_state) :
  parse_loop st tokens = Ok st' ->
  forallb (fun t => negb (is_since_token t)) tokens = true ->
  st_since_days st' = st_since_days st.
Proof.
  revert st; induction tokens as [|t ts IH]; intros st; simpl.
  - now intros [= <-].
  - destruct (parse_token st t) as [st1|e] eqn:E; simpl; [|discriminate].
    intros L H. apply andb_true_iff in H as [Ht Hts].
    apply negb_true_iff in Ht.
    rewrite (IH st1 L Hts). exact (parse_token_keeps_since _ _ _ E Ht).
Qed.

(** C1 (as amended): for every text and every default, [parse_prompt_and_filters]
    returns normally a question, a service that is absent or a string, and a
    [since_days] that is the default or at least 1.  So [since_days] is at
    least 1 whenever the default is, and for an ASCII text it is the default,
    whatever its value, when no token of the text starts with the since
    key. *)
Theorem parse_total_since_days_ge_1 (text : string) :
  exists (prompt : string) (service_ : option string) (since_days : Z),
    parse_prompt_and_filters text = Ok (prompt, service_, since_days)
    /\ (since_days = ASK_DEFAULT_SINCE_DAYS \/ 1 <= since_days)
    /\ (1 <= ASK_DEFAULT_SINCE_DAYS -> 1 <= since_days)
    /\ (is_ascii text = true ->
        forallb (fun t => negb (is_since_token t)) (split text) = true ->
        since_days = ASK_DEFAULT_SINCE_DAYS).
Proof.
  destruct (parse_shape text) as (svc & d & E & D).
  eexists _, svc, d. split; [exact E|]. split; [exact D|].
  split; [destruct D; lia|].
  intros _ H. unfold parse_prompt_and_filters in E.
  destruct (parse_loop (mk_parse_state None ASK_DEFAULT_SINCE_DAYS []) (split text))
    as [st|e] eqn:L; simpl in E; [|discriminate].
  injection E as _ _ <-.
  exact (parse_loop_keeps_since _ _ _ L H).
Qed.

(** C9: parsing the question that [parse_prompt_and_filters] returned gives
    the same question back, with no service filter and the default
    [since_days]. *)
Theorem parse_idempotent_on_question
    (text prompt : string) (service_ : option string) (since_days : Z) :
  parse_prompt_and_filters text = Ok (prompt, service_, since_days) ->
  parse_prompt_and_filters prompt = Ok (prompt, None, ASK_DEFAULT_SINCE_DAYS).
Proof.
  intros H.
  destruct (parse_shape text) as (svc & d & E & _).
  rewrite E in H. injection H as <- _ _.
  set (parts := filter (fun t => negb (is_filter t)) (split text)).
  assert (G : Forall good_token parts).
  { apply incl_Forall with (l1 := split text); [|apply split_good].
    intros t Ht. now apply filter_In in Ht. }
  unfold parse_prompt_and_filters.
  rewrite (split_join _ G).
  rewrite parse_loop_plain.
  - simpl. now rewrite (strip_join _ G).
  - apply forallb_forall. intros t Ht. now apply filter_In in Ht.
Qed.

(** ** The context fetcher *)

Lemma prefix_cancel (a b c : string) :
  String.prefix b c = true -> String.prefix (a ++ b) (a ++ c) = true.
Proof.
  intros H. induction a as [|x a IH]; [exact H|].
  simpl. destruct (ascii_dec x x); [exact IH | congruence].
Qed.

(** The WHERE clause stands in the SQL text on a line of its own. *)
Lemma fetch_sql_where (project where_clause : string) :
  contains (fetch_sql project where_clause) ("WHERE " ++ where_clause ++ nl) = true.
Proof.
  unfold fetch_sql. cbv zeta.
  do 9 apply contains_append_l.
  apply contains_prefix, (prefix_cancel "WHERE "), prefix_cancel, prefix_append.
Qed.

(** C3 (as amended): with a configured store, for a service filter that is a
    non-empty string [fetch_logs] hands the client one query and answers with
    the client's rows, or with no rows when the client raises; the WHERE
    clause of that query is the time condition and the service condition,
    and the filter travels as the [service] parameter.  For an absent filter
    and for the empty string alike, the WHERE clause that is built holds the
    time condition alone. *)
Theorem fetch_logs_service_condition
    (project : string) (client : Client) (start_ts : string)
    (service_ : option string) (since_days : Z) :
  PROJECT = Some project -> project <> "" ->
  bigquery_Client project = Ok client ->
  utc_days_ago_iso since_days = Ok start_ts ->
  let q := fetch_query project service_ start_ts in
  (forall s, service_ = Some s -> s <> "" ->
     fetch_logs service_ since_days
     = match client q with Ok rows => Ok rows | Raise _ => Ok [] end
     /\ fetch_where service_ start_ts = [ts_condition start_ts; service_condition]
     /\ contains (q_sql q)
          ("WHERE " ++ (ts_condition start_ts ++ " AND " ++ service_condition) ++ nl)
        = true
     /\ q_parameters q = Some [("service", "STRING", s)])
  /\ (service_ = None \/ service_ = Some "" ->
      fetch_where service_ start_ts = [ts_condition start_ts]
      /\ contains (q_sql q) ("WHERE " ++ ts_condition start_ts ++ nl) = true
      /\ q_parameters q = None).
Proof.
  intros HP Hne Hc Ht q. split.
  - intros s -> Hs. destruct s as [|c r]; [congruence|].
    split; [|split; [reflexivity|split; [|reflexivity]]].
    + unfold fetch_logs, fetch_try. rewrite HP.
      apply String.eqb_neq in Hne. rewrite Hne, Hc, Ht. reflexivity.
    + apply (fetch_sql_where project
               (ts_condition start_ts ++ " AND " ++ service_condition)).
  - intros [-> | ->];
      (split; [reflexivity|split; [|reflexivity]]);
      apply (fetch_sql_where project (ts_condition start_ts)).
Qed.

(** C4: [fetch_logs] returns the empty list, and does not raise, when no
    project is configured and when anything inside its [try] block raises:
    creating the client, computing the start of the window, or running the
    query. *)
Theorem fetch_logs_empty_on_failure (service_ : option string) (since_days : Z) :
  opt_truthy PROJECT = false
  \/ (exists project e,
        PROJECT = Some project /\ fetch_try project service_ since_days = Raise e) ->
  fetch_logs service_ since_days = Ok [].
Proof.
  unfold fetch_logs. intros [H | (project & e & -> & H)].
  - destruct PROJECT as [p|]; [|reflexivity].
    simpl in H. apply negb_false_iff in H. now rewrite H.
  - rewrite H. now destruct (String.eqb project "").
Qed.

(** Whatever the collaborators do, [fetch_logs] returns a list. *)
Lemma fetch_logs_total (service_ : option string) (since_days : Z) :
  exists rows, fetch_logs service_ since_days = Ok rows.
Proof.
  unfold fetch_logs. destruct PROJECT as [p|]; [|now exists []].
  destruct (String.eqb p ""); [now exists []|].
  destruct (fetch_try p service_ since_days) as [rows|e];
    [now exists rows | now exists []].
Qed.

(** ** The chat router *)

(** Whether or not the model is configured, [llm_answer] returns a text. *)
Lemma llm_answer_total (user_prompt : string) (rows : list row) :
  exists text, llm_answer user_prompt rows = Ok text.
Proof.
  unfold llm_answer. destruct _gen as [g|]; [|eauto].
  destruct (g (llm_prompt user_prompt rows)); eauto.
Qed.

(** The pipeline never raises, and the thread of its reply is built from the
    thread name it was given. *)
Lemma ask_reply_shape (text : string) (thread_name : value) :
  exists response_text, ask_reply text thread_name = Ok (response_dict response_text thread_name).
Proof.
  unfold ask_reply.
  destruct (parse_shape text) as (svc & d & -> & _). simpl.
  destruct (fetch_logs_total svc d) as [rows ->]. simpl.
  destruct (llm_answer_total
              (join " " (filter (fun t => negb (is_filter t)) (split text))) rows)
    as [answer ->]. simpl.
  eexists; reflexivity.
Qed.

Lemma payload_reply_shape (usage : string) (payload resp : value) :
  payload_reply usage payload = Ok resp ->
  resp = text_only usage
  \/ exists response_text thread_name,
       (message_ <- py_get payload "message" (VDict []) ;;
        message_thread_name message_) = Ok thread_name
       /\ resp = response_dict response_text thread_name.
Proof.
  unfold payload_reply.
  destruct (py_get payload "message" (VDict [])) as [m|]; simpl; [|discriminate].
  destruct (py_get m "argumentText" (VStr "")) as [arg|]; simpl; [|discriminate].
  destruct (py_strip arg) as [text|]; simpl; [|discriminate].
  destruct (message_thread_name m) as [tn|]; simpl; [|discriminate].
  destruct (String.eqb text "").
  - intros [= <-]. now left.
  - destruct (ask_reply_shape text tn) as [rt ->]. intros [= <-].
    right. now exists rt, tn.
Qed.

Lemma response_dict_thread (response_text : string) (thread_name : value) :
  reply_thread (response_dict response_text thread_name)
  = Some (if truthy thread_name then VDict [("name", thread_name)] else VNone).
Proof. reflexivity. Qed.

Lemma chat_payload_dict (fields cf : list (string * value)) (key : string) :
  dict_get fields "chat" = Some (VDict cf) ->
  exists v,
    chat_payload (VDict fields) key = Ok v
    /\ truthy v = truthy (get_or_none cf key)
    /\ (truthy v = true -> v = get_or_none cf key).
Proof.
  intros H. unfold chat_payload, get_or_none. simpl. rewrite H.
  destruct cf as [|kv cf']; simpl.
  - exists (VDict []). repeat split. discriminate.
  - eexists. repeat split.
Qed.

Lemma py_item_chat (fields cf : list (string * value)) (key : string) :
  dict_get fields "chat" = Some (VDict cf) ->
  truthy (get_or_none cf key) = true ->
  (chat <- py_item (VDict fields) "chat" ;; py_item chat key)
  = Ok (get_or_none cf key).
Proof.
  intros H T. unfold get_or_none in *. simpl. rewrite H. simpl.
  destruct (dict_get cf key); [reflexivity | discriminate].
Qed.

Lemma no_payload_route (fields : list (string * value)) (key : string) :
  no_chat_payload fields = true ->
  key = "appCommandPayload" \/ key = "messagePayload" ->
  exists v, chat_payload (VDict fields) key = Ok v /\ truthy v = false.
Proof.
  intros Hc Hk. unfold chat_payload, no_chat_payload, get_or_none in *. simpl.
  destruct (dict_get fields "chat") as [chat|]; [|now exists VNone].
  destruct (truthy chat) eqn:Tc; [|now exists chat].
  destruct chat; simpl in Hc, Tc;
    try (rewrite Tc in Hc; discriminate); try discriminate.
  apply andb_true_iff in Hc as [H1 H2].
  apply negb_true_iff in H1, H2. simpl.
  destruct Hk as [-> | ->]; eexists; split; try reflexivity; assumption.
Qed.

Lemma event_thread_readable (fields : list (string * value)) :
  thread_readable fields = true ->
  exists tn,
    (if truthy (match dict_get fields "message" with
                | Some v => v | None => VNone end)
     then message_thread_name
            (match dict_get fields "message" with
             | Some v => v | None => VDict [] end)
     else Ok VNone) = Ok tn
    /\ event_thread_name_plain fields = tn.
Proof.
  unfold thread_readable, event_thread_name_plain, get_or_none.
  destruct (dict_get fields "message") as [m|]; [|now exists VNone].
  destruct (truthy m) eqn:Tm.
  2:{ exists VNone. split; [reflexivity|].
      destruct m; try reflexivity. simpl in Tm. now destruct fields0. }
  intros Hm. destruct m; simpl in Hm, Tm;
    try (rewrite Tm in Hm; discriminate); try discriminate.
  destruct fields0 as [|kv mf]; [discriminate|].
  remember (kv :: mf) as d eqn:Ed. clear Tm.
  unfold message_thread_name. cbn [py_get bind].
  destruct (dict_get d "thread") as [[]|]; try discriminate; simpl; eauto.
Qed.

Lemma payload_reply_not_greeting (usage : string) (payload resp : value) :
  payload_reply usage payload = Ok resp -> usage <> greeting ->
  resp <> text_only greeting.
Proof.
  intros H N. apply payload_reply_shape in H as [-> | (rt & tn & _ & ->)].
  - intros [= E]. congruence.
  - discriminate.
Qed.

(** The payload branches: the slash command first, then the mention. *)
Lemma payload_branch
    (fields cf : list (string * value)) (usage : string) (payload : value) :
  dict_get fields "chat" = Some (VDict cf) ->
  routed_payload cf = Some (usage, payload) ->
  chat_endpoint (Ok (VDict fields)) = payload_reply usage payload.
Proof.
  intros H R. unfold routed_payload in R. unfold chat_endpoint.
  destruct (chat_payload_dict fields cf "appCommandPayload" H) as (v1 & -> & T1 & _).
  cbn [bind]. rewrite T1.
  destruct (truthy (get_or_none cf "appCommandPayload")) eqn:A.
  - injection R as <- <-.
    pose proof (py_item_chat fields cf "appCommandPayload" H A) as I.
    destruct (py_item (VDict fields) "chat") as [chat|]; cbn [bind] in *;
      [|discriminate]. now rewrite I.
  - destruct (chat_payload_dict fields cf "messagePayload" H) as (v2 & -> & T2 & _).
    cbn [bind]. rewrite T2.
    destruct (truthy (get_or_none cf "messagePayload")) eqn:B; [|discriminate].
    injection R as <- <-.
    pose proof (py_item_chat fields cf "messagePayload" H B) as I.
    destruct (py_item (VDict fields) "chat") as [chat|]; cbn [bind] in *;
      [|discriminate]. now rewrite I.
Qed.

(** What the [chat] entry of an event leads to: no payload branch, one of
    the two payload branches, or [AttributeError] for a truthy [chat] that is
    not an object. *)
Lemma chat_entry_cases (fields : list (string * value)) :
  no_chat_payload fields = true
  \/ (exists usage payload,
        (usage = usage_slash \/ usage = usage_mention)
        /\ chat_endpoint (Ok (VDict fields)) = payload_reply usage payload)
  \/ chat_endpoint (Ok (VDict fields)) = Raise AttributeError.
Proof.
  unfold no_chat_payload, get_or_none.
  destruct (dict_get fields "chat") as [chat|] eqn:C; [|now left].
  destruct (truthy chat) eqn:T.
  2:{ left. destruct chat; simpl in *; try reflexivity; try now rewrite T.
      now destruct fields0. }
  destruct chat; simpl in T; try discriminate;
    try (right; right; unfold chat_endpoint, chat_payload; simpl;
         rewrite C; simpl; rewrite ?T; reflexivity).
  destruct (routed_payload fields0) as [[usage payload]|] eqn:R.
  - right; left. exists usage, payload. split.
    + unfold routed_payload in R.
      destruct (truthy (get_or_none fields0 "appCommandPayload"));
        [injection R as <- _; now left|].
      destruct (truthy (get_or_none fields0 "messagePayload"));
        [injection R as <- _; now right | discriminate].
    + exact (payload_branch fields fields0 usage payload C R).
  - left. unfold routed_payload, get_or_none in R.
    destruct (truthy match dict_get fields0 "appCommandPayload" with
                     | Some v => v | None => VNone end); [discriminate|].
    destruct (truthy match dict_get fields0 "messagePayload" with
                     | Some v => v | None => VNone end); [discriminate|].
    reflexivity.
Qed.

(** Without a payload branch to take, a [message] whose thread cannot be read
    makes the handler raise. *)
Lemma thread_unreadable_raises (fields : list (string * value)) :
  no_chat_payload fields = true -> thread_readable fields = false ->
  chat_endpoint (Ok (VDict fields)) = Raise AttributeError.
Proof.
  intros Hc Hm. unfold chat_endpoint.
  destruct (no_payload_route fields "appCommandPayload" Hc) as (v1 & -> & F1);
    [now left|]. simpl. rewrite F1.
  destruct (no_payload_route fields "messagePayload" Hc) as (v2 & -> & F2);
    [now right|]. simpl. rewrite F2.
  unfold thread_readable, get_or_none in Hm.
  destruct (dict_get fields "message") as [m|]; [|discriminate].
  assert (T : truthy m = true /\ message_thread_name m = Raise AttributeError).
  { destruct m;
      try (apply negb_false_iff in Hm; split; [exact Hm | reflexivity]).
    cbv beta iota in Hm.
    destruct fields0 as [|kv mf]; [discriminate|].
    split; [reflexivity|].
    remember (kv :: mf) as d eqn:Ed.
    unfold message_thread_name. cbn [py_get bind].
    destruct (dict_get d "thread") as [[]|]; try discriminate; reflexivity. }
  destruct T as [T E]. rewrite T, E. reflexivity.
Qed.

(** C7 (as amended): an event whose [type] is ADDED_TO_SPACE gets the static
    greeting, whatever else it holds, exactly when its [chat] entry is
    missing or falsy, or is an object with no truthy [appCommandPayload] and
    no truthy [messagePayload], and its [message] entry is missing or falsy,
    or is an object whose [thread] entry is missing or an object. *)
Theorem added_to_space_greeting (fields : list (string * value)) :
  dict_get fields "type" = Some (VStr "ADDED_TO_SPACE") ->
  (chat_endpoint (Ok (VDict fields)) = Ok (text_only greeting)
   <-> no_chat_payload fields = true /\ thread_readable fields = true).
Proof.
  intros Ht. split.
  - intros R.
    destruct (chat_entry_cases fields) as [Hc | [(usage & payload & U & E) | E]].
    + split; [exact Hc|].
      destruct (thread_readable fields) eqn:Hm; [reflexivity|].
      rewrite (thread_unreadable_raises fields Hc Hm) in R. discriminate.
    + rewrite E in R. exfalso.
      apply (payload_reply_not_greeting usage payload _ R); [|reflexivity].
      destruct U as [-> | ->]; discriminate.
    + rewrite E in R. discriminate.
  - intros [Hc Hm]. unfold chat_endpoint.
    destruct (no_payload_route fields "appCommandPayload" Hc) as (v1 & -> & F1);
      [now left|]. simpl. rewrite F1.
    destruct (no_payload_route fields "messagePayload" Hc) as (v2 & -> & F2);
      [now right|]. simpl. rewrite F2.
    destruct (event_thread_readable fields Hm) as (tn & -> & _). simpl.
    rewrite Ht. reflexivity.
Qed.

(** What [chat_endpoint] answers on a route. *)
Lemma payload_reply_route (usage : string) (payload : value) :
  payload_reply usage payload
  = (r <- payload_route usage payload ;;
     match r with
     | Ask _ text thread_name => ask_reply text thread_name
     | Usage u => Ok (text_only u)
     | Greeting => Ok (text_only greeting)
     | Help => Ok (text_only default_help)
     end).
Proof.
  unfold payload_reply, payload_route.
  destruct (py_get payload "message" (VDict [])) as [m|]; cbn [bind]; [|reflexivity].
  destruct (py_get m "argumentText" (VStr "")) as [arg|]; cbn [bind]; [|reflexivity].
  destruct (py_strip arg) as [text|]; cbn [bind]; [|reflexivity].
  destruct (message_thread_name m) as [tn|]; cbn [bind]; [|reflexivity].
  now destruct (String.eqb text "").
Qed.

Lemma chat_endpoint_route (event : value) :
  chat_endpoint (Ok event)
  = (r <- event_route event ;;
     match r with
     | Ask _ text thread_name => ask_reply text thread_name
     | Usage u => Ok (text_only u)
     | Greeting => Ok (text_only greeting)
     | Help => Ok (text_only default_help)
     end).
Proof.
  unfold chat_endpoint, event_route.
  destruct (chat_payload event "appCommandPayload") as [slash|]; cbn [bind];
    [|reflexivity].
  destruct (truthy slash).
  { destruct (py_item event "chat") as [chat|]; cbn [bind]; [|reflexivity].
    destruct (py_item chat "appCommandPayload") as [payload|]; cbn [bind];
      [|reflexivity].
    apply payload_reply_route. }
  destruct (chat_payload event "messagePayload") as [mention|]; cbn [bind];
    [|reflexivity].
  destruct (truthy mention).
  { destruct (py_item event "chat") as [chat|]; cbn [bind]; [|reflexivity].
    destruct (py_item chat "messagePayload") as [payload|]; cbn [bind];
      [|reflexivity].
    apply payload_reply_route. }
  destruct (py_get event "message" VNone) as [msg|]; cbn [bind]; [|reflexivity].
  destruct (if truthy msg
            then msg' <- py_get event "message" (VDict []) ;; message_thread_name msg'
            else Ok VNone) as [tn|]; cbn [bind]; [|reflexivity].
  destruct (py_get event "type" VNone) as [etype|]; cbn [bind]; [|reflexivity].
  destruct (eq_str etype "ADDED_TO_SPACE"); [reflexivity|].
  destruct (eq_str etype "MESSAGE"); [|reflexivity].
  destruct (py_get event "message" (VDict [])) as [msg1|]; cbn [bind]; [|reflexivity].
  destruct (py_get msg1 "argumentText" VNone) as [arg|]; cbn [bind]; [|reflexivity].
  destruct (if truthy arg then Ok arg
            else txt <- py_get msg1 "text" VNone ;;
                 Ok (py_or txt (VStr ""))) as [raw|]; cbn [bind]; [|reflexivity].
  destruct (py_strip raw) as [text|]; cbn [bind]; [|reflexivity].
  now destruct (String.eqb text "").
Qed.

(** The thread name of a question is the one read on the branch taken. *)
Lemma payload_route_thread (usage : string) (payload : value)
    (u text : string) (tn : value) :
  payload_route usage payload = Ok (Ask u text tn) ->
  (message_ <- py_get payload "message" (VDict []) ;; message_thread_name message_)
  = Ok tn.
Proof.
  unfold payload_route.
  destruct (py_get payload "message" (VDict [])) as [m|]; cbn [bind]; [|discriminate].
  destruct (py_get m "argumentText" (VStr "")) as [arg|]; cbn [bind]; [|discriminate].
  destruct (py_strip arg) as [t|]; cbn [bind]; [|discriminate].
  destruct (message_thread_name m) as [tn'|]; cbn [bind]; [|discriminate].
  destruct (String.eqb t ""); [discriminate|]. now intros [= _ _ ->].
Qed.

Lemma event_route_thread (event : value) (u text : string) (tn : value) :
  event_route event = Ok (Ask u text tn) -> event_thread_name event = Ok tn.
Proof.
  unfold event_route, event_thread_name.
  destruct (chat_payload event "appCommandPayload") as [slash|]; cbn [bind];
    [|discriminate].
  destruct (truthy slash).
  { destruct (py_item event "chat") as [chat|]; cbn [bind]; [|discriminate].
    destruct (py_item chat "appCommandPayload") as [payload|]; cbn [bind];
      [|discriminate].
    apply payload_route_thread. }
  destruct (chat_payload event "messagePayload") as [mention|]; cbn [bind];
    [|discriminate].
  destruct (truthy mention).
  { destruct (py_item event "chat") as [chat|]; cbn [bind]; [|discriminate].
    destruct (py_item chat "messagePayload") as [payload|]; cbn [bind];
      [|discriminate].
    apply payload_route_thread. }
  destruct (py_get event "message" VNone) as [msg|]; cbn [bind]; [|discriminate].
  destruct (if truthy msg
            then msg' <- py_get event "message" (VDict []) ;; message_thread_name msg'
            else Ok VNone) as [tn'|]; cbn [bind]; [|discriminate].
  destruct (py_get event "type" VNone) as [etype|]; cbn [bind]; [|discriminate].
  destruct (eq_str etype "ADDED_TO_SPACE"); [discriminate|].
  destruct (eq_str etype "MESSAGE"); [|discriminate].
  destruct (py_get event "message" (VDict [])) as [msg1|]; cbn [bind]; [|discriminate].
  destruct (py_get msg1 "argumentText" VNone) as [arg|]; cbn [bind]; [|discriminate].
  destruct (if truthy arg then Ok arg
            else txt <- py_get msg1 "text" VNone ;;
                 Ok (py_or txt (VStr ""))) as [raw|]; cbn [bind]; [|discriminate].
  destruct (py_strip raw) as [t|]; cbn [bind]; [|discriminate].
  destruct (String.eqb t ""); [discriminate|]. now intros [= _ _ ->].
Qed.

(** C8 (as amended): what [chat_endpoint] answers follows the route of the
    event.  On the pipeline route the reply always has a [thread] entry: it is
    [{"name": n}] with [n] the thread name read from the event, unchanged,
    when [n] is truthy, and [None] when the name is missing or falsy.  The
    usage, greeting and help replies are a bare text without a [thread]
    entry, whatever thread the event holds.  A question that is not ASCII
    may be blank for [str.strip] (a no-break space), and then it gets the
    usage text of its branch; an ASCII question always gets the pipeline
    reply.  When routing raises, so does the handler. *)
Theorem reply_thread_field (event : value) :
  match event_route event with
  | Ok (Ask usage text thread_name) =>
      event_thread_name event = Ok thread_name
      /\ ((exists response_text,
             chat_endpoint (Ok event)
             = Ok (response_dict response_text thread_name)
             /\ reply_thread (response_dict response_text thread_name)
                = Some (if truthy thread_name
                        then VDict [("name", thread_name)] else VNone))
          \/ (is_ascii text = false
              /\ chat_endpoint (Ok event) = Ok (text_only usage)
              /\ reply_thread (text_only usage) = None))
  | Ok (Usage usage) =>
      chat_endpoint (Ok event) = Ok (text_only usage)
      /\ reply_thread (text_only usage) = None
  | Ok Greeting =>
      chat_endpoint (Ok event) = Ok (text_only greeting)
      /\ reply_thread (text_only greeting) = None
  | Ok Help =>
      chat_endpoint (Ok event) = Ok (text_only default_help)
      /\ reply_thread (text_only default_help) = None
  | Raise e => chat_endpoint (Ok event) = Raise e
  end.
Proof.
  rewrite chat_endpoint_route.
  destruct (event_route event) as [[usage| | |usage text tn]|e] eqn:R; cbn [bind].
  - split; reflexivity.
  - split; reflexivity.
  - split; reflexivity.
  - split; [exact (event_route_thread event usage text tn R)|].
    left. destruct (ask_reply_shape text tn) as [rt ->]. exists rt.
    split; reflexivity.
  - reflexivity.
Qed.

(** * Further properties *)

(** ** The filter parser *)

Lemma split_all_space (s : string) : all_space s = true -> split s = [].
Proof.
  induction s as [|c r IH]; simpl; [reflexivity|].
  intros H. apply andb_true_iff in H as [-> Hr]. now apply IH.
Qed.

Lemma split_head_not_space (c : ascii) (r : string) :
  is_space c = false -> split (String c r) <> [].
Proof.
  intros H. simpl. rewrite H.
  destruct (head_is_space r); [discriminate|].
  destruct (split r); discriminate.
Qed.

(** A blank in the text ends the token before it. *)
Lemma split_app_space (a : string) (c : ascii) (b : string) :
  is_space c = true ->
  split (a ++ String c b) = (split a ++ split b)%list.
Proof.
  intros Hc. induction a as [|x a IH].
  - simpl. now rewrite Hc.
  - change (String x a ++ String c b) with (String x (a ++ String c b)).
    cbn [split]. destruct (is_space x) eqn:Ex; [exact IH|].
    destruct a as [|y a'].
    + simpl. now rewrite Hc.
    + change (head_is_space (String y a' ++ String c b)) with (is_space y).
      change (head_is_space (String y a')) with (is_space y).
      rewrite IH. destruct (is_space y) eqn:Ey; [reflexivity|].
      pose proof (split_head_not_space y a' Ey) as Hne.
      destruct (split (String y a')) as [|t ts]; [congruence | reflexivity].
Qed.

Lemma split_token (t : string) : good_token t -> split t = [t].
Proof.
  intros H. rewrite <- (append_empty_r t) at 1.
  now rewrite split_app_token by auto.
Qed.

Lemma split_app_token_r (text t : string) :
  good_token t -> split (text ++ " " ++ t) = (split text ++ [t])%list.
Proof.
  intros H. change (" " ++ t) with (String " " t).
  rewrite (split_app_space text " " t eq_refl). now rewrite (split_token t H).
Qed.

Lemma parse_loop_app (l1 l2 : list string) (st : parse_state) :
  parse_loop st (l1 ++ l2) = (st' <- parse_loop st l1 ;; parse_loop st' l2).
Proof.
  revert st; induction l1 as [|t l1 IH]; intros st; simpl; [reflexivity|].
  destruct (parse_token st t) as [st1|e]; simpl; [apply IH | reflexivity].
Qed.

Lemma lower_app (a b : string) : lower (a ++ b) = lower a ++ lower b.
Proof.
  unfold lower. induction a as [|c a IH]; simpl; [reflexivity | now rewrite IH].
Qed.

Lemma lower_length (a : string) : String.length (lower a) = String.length a.
Proof. unfold lower. induction a as [|c a IH]; simpl; [reflexivity | now rewrite IH]. Qed.

Lemma no_space_app (a b : string) :
  no_space (a ++ b) = no_space a && no_space b.
Proof.
  induction a as [|c a IH]; simpl; [reflexivity|].
  now rewrite IH, andb_assoc.
Qed.

Lemma no_space_lower (a : string) : no_space (lower a) = true -> no_space a = true.
Proof.
  unfold lower. induction a as [|c a IH]; simpl; [reflexivity|].
  intros H. apply andb_true_iff in H as [Hc Ha]. rewrite (IH Ha), andb_true_r.
  revert Hc. clear. destruct c as [[] [] [] [] [] [] [] []]; vm_compute; congruence.
Qed.

(** The first colon of a token that spells a key ending in a colon, in any
    letter case, is the colon of the key. *)
Lemma split_once_key (k key v : string) :
  lower k = key ++ ":" -> has_colon key = false ->
  split_once ":" (k ++ v) = [substring 0 (String.length key) k; v].
Proof.
  revert k; induction key as [|c key IH]; intros k Hk Hc.
  - destruct k as [|x [|y k]]; try discriminate.
    unfold lower in Hk. simpl in Hk. injection Hk as Hx.
    simpl. rewrite <- lower_char_colon, Hx. reflexivity.
  - destruct k as [|x k]; [discriminate|].
    unfold lower in Hk. simpl in Hk. injection Hk as Hx Hk.
    simpl in Hc. apply orb_false_iff in Hc as [Hc1 Hc2].
    simpl. rewrite <- lower_char_colon, Hx, Hc1.
    now rewrite (IH k Hk Hc2).
Qed.

Lemma key_token_good (k key v : string) :
  lower k = key -> key <> "" -> no_space key = true -> no_space v = true ->
  good_token (k ++ v).
Proof.
  intros Hk Hne Hs Hv. split.
  - destruct k; [subst; now destruct Hne | discriminate].
  - rewrite no_space_app, Hv, andb_true_r. apply no_space_lower. now rewrite Hk.
Qed.

Lemma startswith_append (p s : string) : startswith (p ++ s) p = true.
Proof.
  unfold startswith. induction p as [|c p IH]; simpl; [now destruct s|].
  destruct (ascii_dec c c); [exact IH | congruence].
Qed.

Lemma parse_token_service (st : parse_state) (k v : string) :
  lower k = "service:" ->
  parse_token st (k ++ v)
  = Ok (mk_parse_state (Some v) (st_since_days st) (st_parts st)).
Proof.
  intros Hk. unfold parse_token.
  rewrite lower_app, Hk, startswith_append.
  now rewrite (split_once_key k "service" v Hk eq_refl).
Qed.

Lemma parse_token_since (st : parse_state) (k v : string) :
  lower k = "since:" ->
  parse_token st (k ++ v)
  = Ok (match py_int int_max_str_digits v with
        | Ok n => mk_parse_state (st_service st) (Z.max 1 n) (st_parts st)
        | Raise _ => st
        end).
Proof.
  intros Hk. unfold parse_token.
  rewrite lower_app, Hk.
  change (startswith ("since:" ++ lower v) "service:") with false.
  rewrite startswith_append.
  rewrite (split_once_key k "since" v Hk eq_refl). simpl.
  destruct (py_int int_max_str_digits v) as [n|e] eqn:E; simpl; [reflexivity|].
  now rewrite (py_int_raises _ _ _ E).
Qed.

Lemma parse_loop_of_parse (text q : string) (s : option string) (d : Z) :
  parse_prompt_and_filters text = Ok (q, s, d) ->
  exists st,
    parse_loop (mk_parse_state None ASK_DEFAULT_SINCE_DAYS []) (split text) = Ok st
    /\ q = strip (join " " (st_parts st)) /\ s = st_service st
    /\ d = st_since_days st.
Proof.
  unfold parse_prompt_and_filters.
  destruct (parse_loop _ (split text)) as [st|e]; simpl; [|discriminate].
  intros [= <- <- <-]. now exists st.
Qed.

(** X1: the parser returns for every text.  For an ASCII text the question
    is made of the tokens of the text that are not filters, in their order
    and joined by single spaces, and splitting the question gives these
    tokens back. *)
Theorem parse_question_is_retained_tokens (text : string) :
  exists (q : string) (s : option string) (d : Z),
    parse_prompt_and_filters text = Ok (q, s, d)
    /\ (is_ascii text = true ->
        q = join " " (retained text) /\ split q = retained text).
Proof.
  destruct (parse_shape text) as (s & d & E & _).
  eexists _, s, d. split; [exact E|]. intros _. split; [reflexivity|].
  apply split_join.
  apply incl_Forall with (l1 := split text); [|apply split_good].
  intros t Ht. now apply filter_In in Ht.
Qed.

(** X2: a text of blanks only, the empty text included, parses to the empty
    question, no service filter and the default lookback. *)
Theorem parse_blank_text (text : string) :
  all_space text = true ->
  parse_prompt_and_filters text = Ok ("", None, ASK_DEFAULT_SINCE_DAYS).
Proof.
  intros H. unfold parse_prompt_and_filters.
  now rewrite (split_all_space _ H).
Qed.

(** X3: an ASCII text without filter tokens comes back as its words joined
    by single spaces, with no service filter and the default lookback. *)
Theorem parse_without_filters (text : string) :
  is_ascii text = true ->
  forallb (fun t => negb (is_filter t)) (split text) = true ->
  parse_prompt_and_filters text
  = Ok (join " " (split text), None, ASK_DEFAULT_SINCE_DAYS).
Proof.
  intros _ H. unfold parse_prompt_and_filters.
  rewrite parse_loop_plain by exact H. simpl.
  now rewrite strip_join by apply split_good.
Qed.

(** X4: in ASCII text, a service token put at the end of a text wins over
    any earlier one.  The key is matched in any letter case, the value is
    taken as written (it may be empty), and the question and the lookback
    stay as they were. *)
Theorem parse_appended_service_wins
    (text k v q : string) (s : option string) (d : Z) :
  is_ascii text = true -> is_ascii v = true ->
  lower k = "service:" -> no_space v = true ->
  parse_prompt_and_filters text = Ok (q, s, d) ->
  parse_prompt_and_filters (text ++ " " ++ k ++ v) = Ok (q, Some v, d).
Proof.
  intros _ _ Hk Hv H.
  destruct (parse_loop_of_parse _ _ _ _ H) as (st & L & -> & _ & ->).
  unfold parse_prompt_and_filters.
  rewrite split_app_token_r
    by (apply (key_token_good k "service:" v); auto; discriminate).
  rewrite parse_loop_app, L. simpl.
  now rewrite parse_token_service.
Qed.

(** X5: in ASCII text, a since token put at the end of a text sets the
    lookback to its value, raised to 1 when it is smaller, if [int] reads the
    value; if not, the token is dropped and the lookback stays as it was.
    The question and the service filter stay as they were. *)
Theorem parse_appended_since
    (text k v q : string) (s : option string) (d : Z) :
  is_ascii text = true -> is_ascii v = true ->
  lower k = "since:" -> no_space v = true ->
  parse_prompt_and_filters text = Ok (q, s, d) ->
  parse_prompt_and_filters (text ++ " " ++ k ++ v)
  = Ok (q, s, match py_int int_max_str_digits v with
              | Ok n => Z.max 1 n
              | Raise _ => d
              end).
Proof.
  intros _ _ Hk Hv H.
  destruct (parse_loop_of_parse _ _ _ _ H) as (st & L & -> & -> & ->).
  unfold parse_prompt_and_filters.
  rewrite split_app_token_r
    by (apply (key_token_good k "since:" v); auto; discriminate).
  rewrite parse_loop_app, L. simpl.
  rewrite parse_token_since by exact Hk. simpl.
  now destruct (py_int int_max_str_digits v).
Qed.

(** *** Reading back a printed integer *)

Lemma int_digits_uint_acc (d : Decimal.uint) (acc : positive) (n : nat) :
  int_digits false (Z.pos acc) n (NilEmpty.string_of_uint d)
  = Some (Z.pos (Pos.of_uint_acc d acc),
          (n + String.length (NilEmpty.string_of_uint d))%nat).
Proof.
  revert acc n; induction d; intros acc n; cbn [NilEmpty.string_of_uint];
    [simpl; now rewrite Nat.add_0_r | ..];
    cbn [int_digits Pos.of_uint_acc String.length];
    match goal with
    | |- context [Ascii.eqb ?c "_"] => change (Ascii.eqb c "_") with false
    end;
    cbv iota;
    match goal with
    | |- context [digit_val ?c] =>
        let v := eval vm_compute in (digit_val c) in
        change (digit_val c) with v
    end;
    cbv iota beta;
    match goal with
    | |- int_digits false ?z _ _ = Some (Z.pos (Pos.of_uint_acc _ ?p), _) =>
        replace z with (Z.pos p) by lia
    end;
    rewrite IHd; now rewrite Nat.add_succ_comm.
Qed.

Lemma int_digits_uint (d : Decimal.uint) (n : nat) :
  int_digits false 0 n (NilEmpty.string_of_uint d)
  = Some (Z.of_N (Pos.of_uint d),
          (n + String.length (NilEmpty.string_of_uint d))%nat).
Proof.
  revert n; induction d; intros n; cbn [NilEmpty.string_of_uint];
    [simpl; now rewrite Nat.add_0_r | ..];
    cbn [int_digits Pos.of_uint String.length];
    match goal with
    | |- context [Ascii.eqb ?c "_"] => change (Ascii.eqb c "_") with false
    end;
    cbv iota;
    match goal with
    | |- context [digit_val ?c] =>
        let v := eval vm_compute in (digit_val c) in
        change (digit_val c) with v
    end;
    cbv iota beta;
    [ change (10 * 0 + 0) with 0; rewrite IHd; now rewrite Nat.add_succ_comm
    | rewrite (int_digits_uint_acc d 1)
    | rewrite (int_digits_uint_acc d 2)
    | rewrite (int_digits_uint_acc d 3)
    | rewrite (int_digits_uint_acc d 4)
    | rewrite (int_digits_uint_acc d 5)
    | rewrite (int_digits_uint_acc d 6)
    | rewrite (int_digits_uint_acc d 7)
    | rewrite (int_digits_uint_acc d 8)
    | rewrite (int_digits_uint_acc d 9) ];
    now rewrite Nat.add_succ_comm.
Qed.

Lemma no_space_uint (d : Decimal.uint) :
  no_space (NilEmpty.string_of_uint d) = true.
Proof. induction d; simpl; auto. Qed.

Lemma strip_token (t : string) : good_token t -> strip t = t.
Proof.
  intros H. unfold strip.
  rewrite <- (append_empty_r t) at 1. rewrite lstrip_token by exact H.
  rewrite append_empty_r. now apply rstrip_token.
Qed.

Lemma py_int_uint (lim : nat) (d : Decimal.uint) :
  d <> Decimal.Nil ->
  (String.length (NilEmpty.string_of_uint d) <= 640)%nat ->
  py_int lim (NilEmpty.string_of_uint d) = Ok (Z.of_N (Pos.of_uint d)).
Proof.
  intros Hd Hl. unfold py_int.
  rewrite strip_token.
  2:{ split; [now destruct d | apply no_space_uint]. }
  pose proof (int_digits_uint d 0) as E. simpl in E.
  apply Nat.ltb_ge in Hl.
  destruct d; [congruence | ..]; cbn [NilEmpty.string_of_uint] in *;
    cbv match beta; change (Ascii.eqb _ "_") with false; cbv iota;
    rewrite E, Hl; reflexivity.
Qed.

Lemma py_int_str_of_Z (lim : nat) (z : Z) :
  (String.length (str_of_Z z) <= 640)%nat ->
  py_int lim (str_of_Z z) = Ok z.
Proof.
  unfold str_of_Z. destruct z as [|p|p]; cbn [Z.to_int NilEmpty.string_of_int].
  - intros _. reflexivity.
  - intros H. rewrite py_int_uint; [now rewrite DecimalPos.Unsigned.of_to | | exact H].
    intros E. pose proof (DecimalPos.Unsigned.of_to p) as O.
    rewrite E in O. discriminate.
  - intros H. cbn [String.length] in H.
    assert (Hd : Pos.to_uint p <> Decimal.Nil).
    { intros E. pose proof (DecimalPos.Unsigned.of_to p) as O.
      rewrite E in O. discriminate. }
    pose proof (py_int_uint lim (Pos.to_uint p) Hd ltac:(lia)) as P.
    unfold py_int in *.
    rewrite strip_token in P
      by (split; [now destruct (Pos.to_uint p) | apply no_space_uint]).
    rewrite strip_token.
    2:{ split; [discriminate | simpl; apply no_space_uint]. }
    cbv match beta.
    destruct (NilEmpty.string_of_uint (Pos.to_uint p)) as [|c r] eqn:S.
    { now destruct (Pos.to_uint p). }
    assert (C : (if Ascii.eqb c "-" then true else Ascii.eqb c "+") = false).
    { destruct (Pos.to_uint p); try discriminate; injection S as <- _; reflexivity. }
    revert P.
    destruct (Ascii.eqb_spec c "-") as [->|]; [discriminate|].
    destruct (Ascii.eqb_spec c "+") as [->|]; [discriminate|].
    assert (M : match String c r with
                | String "-" r0 => (true, r0)
                | String "+" r0 => (false, r0)
                | _ => (false, String c r)
                end = (false, String c r)).
    { destruct c as [[] [] [] [] [] [] [] []]; try reflexivity; congruence. }
    rewrite M. cbv iota beta.
    destruct (Ascii.eqb c "_"); [discriminate|].
    destruct (int_digits false 0 0 (String c r)) as [[v k]|]; [|discriminate].
    destruct ((640 <? k) && (0 <? lim) && (lim <? k))%nat; [discriminate|].
    intros [= ->]. rewrite DecimalPos.Unsigned.of_to. reflexivity.
Qed.

Lemma no_space_str_of_Z (z : Z) : no_space (str_of_Z z) = true.
Proof.
  unfold str_of_Z. destruct z; cbn [Z.to_int NilEmpty.string_of_int];
    [reflexivity | apply no_space_uint | simpl; apply no_space_uint].
Qed.

(** X24: a since token that spells an integer, put at the end of a text, sets
    the lookback to that integer, or to 1 when the integer is zero or
    negative. *)
Theorem parse_appended_since_number
    (text q : string) (s : option string) (d n : Z) :
  (String.length (str_of_Z n) <= 640)%nat ->
  parse_prompt_and_filters text = Ok (q, s, d) ->
  parse_prompt_and_filters (text ++ " since:" ++ str_of_Z n)
  = Ok (q, s, Z.max 1 n).
Proof.
  intros Hn H.
  destruct (parse_loop_of_parse _ _ _ _ H) as (st & L & -> & -> & ->).
  unfold parse_prompt_and_filters.
  change (text ++ " since:" ++ str_of_Z n)
    with (text ++ " " ++ "since:" ++ str_of_Z n).
  rewrite split_app_token_r
    by (apply (key_token_good "since:" "since:" (str_of_Z n));
        auto using no_space_str_of_Z; discriminate).
  rewrite parse_loop_app, L. cbn [bind parse_loop].
  rewrite parse_token_since by reflexivity.
  rewrite py_int_str_of_Z by exact Hn. reflexivity.
Qed.

Lemma parse_token_keeps_service (st st' : parse_state) (token : string) :
  parse_token st token = Ok st' ->
  if is_service_token token then st_service st' <> None
  else st_service st' = st_service st.
Proof.
  unfold parse_token, is_service_token.
  destruct (startswith (lower token) "service:").
  - destruct (index (split_once ":" token) 1); simpl; [|discriminate].
    intros [= <-]. discriminate.
  - destruct (startswith (lower token) "since:"); [|now intros [= <-]].
    destruct (v <- index (split_once ":" token) 1 ;;
              n <- py_int int_max_str_digits v ;; Ok (Z.max 1 n)) as [n|[]];
      try discriminate; now intros [= <-].
Qed.

Lemma parse_loop_service_none (tokens : list string) (st st' : parse_state) :
  parse_loop st tokens = Ok st' ->
  (st_service st' = None
   <-> st_service st = None
       /\ forallb (fun t => negb (is_service_token t)) tokens = true).
Proof.
  revert st; induction tokens as [|t ts IH]; intros st; simpl.
  - intros [= <-].
    split; [intros H; split; [exact H | reflexivity] | intros [H _]; exact H].
  - destruct (parse_token st t) as [st1|e] eqn:E; simpl; [|discriminate].
    intros L. rewrite (IH st1 L).
    pose proof (parse_token_keeps_service _ _ _ E) as K.
    destruct (is_service_token t); simpl.
    + split; [intros [H _]; contradiction | intros [_ H]; discriminate].
    + rewrite K. reflexivity.
Qed.

(** X6: for an ASCII text the service filter is absent exactly when no token
    of the text starts with the service key; a token that is the bare key
    makes it the empty string, not absent. *)
Theorem parse_service_absent_iff
    (text q : string) (s : option string) (d : Z) :
  is_ascii text = true ->
  parse_prompt_and_filters text = Ok (q, s, d) ->
  (s = None
   <-> forallb (fun t => negb (is_service_token t)) (split text) = true).
Proof.
  intros _ H.
  destruct (parse_loop_of_parse _ _ _ _ H) as (st & L & _ & -> & _).
  rewrite (parse_loop_service_none _ _ _ L). simpl.
  split; [intros [_ H']; exact H' | intros H'; split; [reflexivity | exact H']].
Qed.

(** ** The context fetcher *)

(** X7: the SQL text is the same for every non-empty service filter: the
    filter value travels as the query parameter and is never spliced into the
    text. *)
Theorem fetch_sql_independent_of_service
    (project s1 s2 start_ts : string) :
  s1 <> "" -> s2 <> "" ->
  q_sql (fetch_query project (Some s1) start_ts)
  = q_sql (fetch_query project (Some s2) start_ts)
  /\ q_parameters (fetch_query project (Some s1) start_ts)
     = Some [("service", "STRING", s1)].
Proof.
  intros H1 H2. unfold fetch_query, fetch_where, opt_truthy.
  apply String.eqb_neq in H1, H2. now rewrite H1, H2.
Qed.

(** X8: rows come from the store only.  When [fetch_logs] returns a
    non-empty list, a project is configured, the client and the start of the
    window were obtained, and the list is, unchanged, what the client
    returned for the query. *)
Theorem fetch_logs_rows_from_client
    (service_ : option string) (since_days : Z) (rows : list row) :
  fetch_logs service_ since_days = Ok rows -> rows <> [] ->
  exists (project : string) (client : Client) (start_ts : string),
    PROJECT = Some project /\ project <> ""
    /\ bigquery_Client project = Ok client
    /\ utc_days_ago_iso since_days = Ok start_ts
    /\ client (fetch_query project service_ start_ts) = Ok rows.
Proof.
  unfold fetch_logs, fetch_try. intros H Hne.
  destruct PROJECT as [project|]; [|injection H as <-; congruence].
  destruct (String.eqb_spec project "") as [|Hp]; [injection H as <-; congruence|].
  destruct (bigquery_Client project) as [client|] eqn:EC; cbn [bind] in H;
    [|injection H as <-; congruence].
  destruct (utc_days_ago_iso since_days) as [start_ts|] eqn:ET; cbn [bind] in H;
    [|injection H as <-; congruence].
  cbv zeta in H.
  destruct (fetch_query project service_ start_ts) as [sql params] eqn:Q.
  cbn [q_sql q_parameters] in H.
  destruct params as [ps|]; cbn [QueryJobConfig bind] in H;
    [|injection H as <-; congruence].
  destruct (client (mk_Query sql (Some ps))) as [rows'|] eqn:E;
    [|injection H as <-; congruence].
  injection H as <-. exists project, client, start_ts.
  split; [reflexivity|]. split; [exact Hp|]. split; [exact EC|].
  split; [reflexivity|]. rewrite Q. exact E.
Qed.

(** ** The pipeline without collaborators *)


(** ** The alert path *)

(** X10: [send_chat_notification] answers [True] exactly when a webhook URL
    is configured and the post came back with a status outside 400..599; it
    raises exactly when the post raised something that is not a
    [RequestException]. *)
Theorem send_chat_notification_result (message_ : string) (log : list call) :
  (fst (send_chat_notification message_ log) = Ok true
   <-> CHAT_WEBHOOK_URL <> ""
       /\ exists status_code,
            requests_post CHAT_WEBHOOK_URL (post_body message_) 10
            = Responded status_code
            /\ is_http_error status_code = false)
  /\ (forall e,
        fst (send_chat_notification message_ log) = Raise e
        <-> CHAT_WEBHOOK_URL <> ""
            /\ requests_post CHAT_WEBHOOK_URL (post_body message_) 10 = PostRaised e).
Proof.
  unfold send_chat_notification, post_body, io_bind, emit, ret, lift.
  destruct (String.eqb_spec CHAT_WEBHOOK_URL "") as [E|N]; simpl.
  { split; [|intros e]; (split; [intros H; discriminate H | intros [H _]; congruence]). }
  destruct (requests_post CHAT_WEBHOOK_URL (VDict [("text", VStr message_)]) 10)
    as [code|msg|e'] eqn:P; [destruct (is_http_error code) eqn:C| |]; simpl.
  - split; [split|intros e; split].
    + intros H; discriminate H.
    + intros (_ & code' & [= <-] & C'). congruence.
    + intros H; discriminate H.
    + intros [_ H]; discriminate H.
  - split; [split|intros e; split].
    + intros _. split; [exact N|]. now exists code.
    + reflexivity.
    + intros H; discriminate H.
    + intros [_ H]; discriminate H.
  - split; [split|intros e; split].
    + intros H; discriminate H.
    + intros (_ & code' & H & _); discriminate H.
    + intros H; discriminate H.
    + intros [_ H]; discriminate H.
  - split; [split|intros e; split].
    + intros H; discriminate H.
    + intros (_ & code' & H & _); discriminate H.
    + intros [= <-]. now split.
    + intros [_ [= <-]]. reflexivity.
Qed.

(** X11: [send_chat_notification] posts once, the text under the key [text]
    with a timeout of 10 seconds, when a webhook URL is configured, whatever
    comes back; it makes no call when none is configured. *)
Theorem send_chat_notification_calls (message_ : string) (log : list call) :
  snd (send_chat_notification message_ log)
  = (log ++ if String.eqb CHAT_WEBHOOK_URL "" then []
            else [PostCall CHAT_WEBHOOK_URL (post_body message_) 10])%list.
Proof.
  unfold send_chat_notification, post_body.
  destruct (String.eqb CHAT_WEBHOOK_URL ""); [simpl; now rewrite app_nil_r|].
  unfold io_bind, emit, ret, lift. simpl.
  destruct (requests_post CHAT_WEBHOOK_URL (VDict [("text", VStr message_)]) 10)
    as [code| |]; [destruct (is_http_error code)| |]; reflexivity.
Qed.

(** X12: [store_alert_in_bigquery] never raises, and answers [True] exactly
    when a project is configured, the client was created and the insert
    returned no errors. *)
Theorem store_alert_result (alert : ErrorAlert) (log : list call) :
  exists stored : bool,
    fst (store_alert_in_bigquery alert log) = Ok stored
    /\ (stored = true
        <-> exists project,
              PROJECT = Some project /\ project <> ""
              /\ (exists client, bigquery_Client project = Ok client)
              /\ insert_rows_json (project ++ "." ++ BQ_DATASET ++ "." ++ BQ_TABLE)
                   [alert_row alert] = Ok []).
Proof.
  unfold store_alert_in_bigquery.
  destruct PROJECT as [project|].
  2:{ exists false. split; [reflexivity|]. split; [discriminate|].
      intros (p & H & _). discriminate. }
  destruct (String.eqb_spec project "") as [E|N].
  { exists false. split; [reflexivity|]. split; [discriminate|].
    intros (p & [= <-] & H & _). congruence. }
  unfold io_catch, io_bind, emit, lift, ret. simpl.
  destruct (bigquery_Client project) as [client|e] eqn:C; simpl.
  2:{ exists false. split; [reflexivity|]. split; [discriminate|].
      intros (p & [= <-] & _ & [c H] & _). congruence. }
  destruct (insert_rows_json _ [alert_row alert]) as [[|err errs]|e] eqn:I; simpl.
  - exists true. split; [reflexivity|]. split; [|reflexivity].
    intros _. exists project. repeat split; eauto.
  - exists false. split; [reflexivity|]. split; [discriminate|].
    intros (p & [= <-] & _ & _ & H). congruence.
  - exists false. split; [reflexivity|]. split; [discriminate|].
    intros (p & [= <-] & _ & _ & H). congruence.
Qed.

(** X13: [store_alert_in_bigquery] makes no call without a project; with one
    it creates a client and, if that succeeds, inserts one row, the row of the
    alert, into the table [project.dataset.table], once, whatever the insert
    returns. *)
Theorem store_alert_calls (alert : ErrorAlert) (log : list call) :
  snd (store_alert_in_bigquery alert log)
  = (log ++ match PROJECT with
            | None => []
            | Some project =>
                if String.eqb project "" then []
                else ClientCall project
                     :: match bigquery_Client project with
                        | Ok _ =>
                            [InsertCall
                               (project ++ "." ++ BQ_DATASET ++ "." ++ BQ_TABLE)
                               [alert_row alert]]
                        | Raise _ => []
                        end
            end)%list.
Proof.
  unfold store_alert_in_bigquery.
  destruct PROJECT as [project|]; [|simpl; now rewrite app_nil_r].
  destruct (String.eqb project ""); [simpl; now rewrite app_nil_r|].
  unfold io_catch, io_bind, emit, lift, ret. simpl.
  destruct (bigquery_Client project) as [client|e]; simpl; [|reflexivity].
  destruct (insert_rows_json _ [alert_row alert]) as [[|err errs]|e]; simpl;
    now rewrite <- app_assoc.
Qed.

Lemma send_frame (message_ : string) (log : list call) :
  send_chat_notification message_ log
  = (fst (send_chat_notification message_ []),
     (log ++ snd (send_chat_notification message_ []))%list).
Proof.
  unfold send_chat_notification.
  destruct (String.eqb CHAT_WEBHOOK_URL ""); [simpl; now rewrite app_nil_r|].
  unfold io_bind, emit, ret, lift. simpl.
  destruct (requests_post _ _ 10) as [code| |];
    [destruct (is_http_error code)| |]; reflexivity.
Qed.

Lemma store_frame (alert : ErrorAlert) (log : list call) :
  store_alert_in_bigquery alert log
  = (fst (store_alert_in_bigquery alert []),
     (log ++ snd (store_alert_in_bigquery alert []))%list).
Proof.
  unfold store_alert_in_bigquery.
  destruct PROJECT as [project|]; [|simpl; now rewrite app_nil_r].
  destruct (String.eqb project ""); [simpl; now rewrite app_nil_r|].
  unfold io_catch, io_bind, emit, lift, ret. simpl.
  destruct (bigquery_Client project) as [client|e]; simpl; [|reflexivity].
  destruct (insert_rows_json _ [alert_row alert]) as [[|err errs]|e]; simpl;
    now rewrite <- app_assoc.
Qed.

Lemma store_never_raises (alert : ErrorAlert) (log : list call) :
  exists stored, fst (store_alert_in_bigquery alert log) = Ok stored.
Proof.
  unfold store_alert_in_bigquery.
  destruct PROJECT as [project|]; [|now exists false].
  destruct (String.eqb project ""); [now exists false|].
  unfold io_catch, io_bind, emit, lift, ret. simpl.
  destruct (bigquery_Client project) as [client|e]; simpl; [|now exists false].
  destruct (insert_rows_json _ [alert_row alert]) as [[|err errs]|e]; simpl; eauto.
Qed.

(** X14: unless the post raises something other than a [RequestException],
    [receive_alert] returns its report, whose two booleans are what the send
    and the store return on their own, and it makes the calls of the send
    followed by the calls of the store: a failed send does not keep the
    store from being tried, nor the other way round. *)
Theorem receive_alert_reports_both (alert : ErrorAlert) (log : list call) :
  (forall e,
     requests_post CHAT_WEBHOOK_URL
       (post_body (format_error_notification alert)) 10 <> PostRaised e) ->
  exists sent stored : bool,
    fst (send_chat_notification (format_error_notification alert) []) = Ok sent
    /\ fst (store_alert_in_bigquery alert []) = Ok stored
    /\ receive_alert alert log
       = (Ok (VDict [("status", VStr "processed");
                     ("service", VStr (service alert));
                     ("notification_sent", VBool sent);
                     ("bigquery_stored", VBool stored);
                     ("timestamp", VStr utc_now_response)]),
          (log ++ snd (send_chat_notification (format_error_notification alert) [])
               ++ snd (store_alert_in_bigquery alert []))%list).
Proof.
  intros H.
  set (msg := format_error_notification alert) in *.
  assert (S : exists sent, fst (send_chat_notification msg []) = Ok sent).
  { unfold send_chat_notification.
    destruct (String.eqb CHAT_WEBHOOK_URL ""); [now exists false|].
    unfold io_bind, emit, ret, lift. simpl.
    fold (post_body msg).
    destruct (requests_post CHAT_WEBHOOK_URL (post_body msg) 10)
      as [code| |e] eqn:P; [destruct (is_http_error code)| |]; simpl; eauto.
    now destruct (H e). }
  destruct S as [sent S].
  destruct (store_never_raises alert []) as [stored T].
  exists sent, stored. split; [exact S|]. split; [exact T|].
  unfold receive_alert, io_bind. fold msg.
  rewrite (send_frame msg log), S.
  rewrite (store_frame alert), T.
  unfold ret. now rewrite app_assoc.
Qed.

(** X15: when the post raises something other than a [RequestException],
    [receive_alert] raises it too, after the post and before any call to
    BigQuery. *)
Theorem receive_alert_post_raises (alert : ErrorAlert) (log : list call) (e : exn) :
  CHAT_WEBHOOK_URL <> "" ->
  requests_post CHAT_WEBHOOK_URL
    (post_body (format_error_notification alert)) 10 = PostRaised e ->
  receive_alert alert log
  = (Raise e,
     (log ++ [PostCall CHAT_WEBHOOK_URL
                (post_body (format_error_notification alert)) 10])%list).
Proof.
  intros N P. unfold receive_alert, send_chat_notification, io_bind, emit, lift.
  apply String.eqb_neq in N. rewrite N.
  fold (post_body (format_error_notification alert)). now rewrite P.
Qed.

(** ** The chat router *)

(** X16: a body that is not JSON is answered with status 400, and a JSON
    body that is not an object makes the handler raise [AttributeError]. *)
Theorem chat_endpoint_bad_body :
  (forall e, chat_endpoint (Raise e) = Raise (HTTPException 400 "Invalid JSON"))
  /\ (forall event,
        is_dict event = false -> chat_endpoint (Ok event) = Raise AttributeError).
Proof.
  split; [reflexivity|].
  intros event H. destruct event; try discriminate; reflexivity.
Qed.

(** X17: the payload branches come first.  An event whose [chat] entry holds
    a truthy [appCommandPayload] is answered by the slash-command branch, and
    otherwise one that holds a truthy [messagePayload] by the mention branch,
    whatever its [type] and [message] are. *)
Theorem chat_endpoint_payload_first
    (fields cf : list (string * value)) (usage : string) (payload : value) :
  dict_get fields "chat" = Some (VDict cf) ->
  routed_payload cf = Some (usage, payload) ->
  chat_endpoint (Ok (VDict fields)) = payload_reply usage payload.
Proof.
  intros H R. unfold routed_payload in R. unfold chat_endpoint.
  destruct (chat_payload_dict fields cf "appCommandPayload" H) as (v1 & -> & T1 & _).
  cbn [bind]. rewrite T1.
  destruct (truthy (get_or_none cf "appCommandPayload")) eqn:A.
  - injection R as <- <-.
    pose proof (py_item_chat fields cf "appCommandPayload" H A) as I.
    destruct (py_item (VDict fields) "chat") as [chat|]; cbn [bind] in *;
      [|discriminate]. now rewrite I.
  - destruct (chat_payload_dict fields cf "messagePayload" H) as (v2 & -> & T2 & _).
    cbn [bind]. rewrite T2.
    destruct (truthy (get_or_none cf "messagePayload")) eqn:B; [|discriminate].
    injection R as <- <-.
    pose proof (py_item_chat fields cf "messagePayload" H B) as I.
    destruct (py_item (VDict fields) "chat") as [chat|]; cbn [bind] in *;
      [|discriminate]. now rewrite I.
Qed.

(** X18: an event with no payload branch to take, whose thread can be read
    and whose [type] is neither ADDED_TO_SPACE nor MESSAGE (or is missing),
    gets the static help text. *)
Theorem chat_endpoint_default_help (fields : list (string * value)) :
  no_chat_payload fields = true ->
  thread_readable fields = true ->
  eq_str (get_or_none fields "type") "ADDED_TO_SPACE" = false ->
  eq_str (get_or_none fields "type") "MESSAGE" = false ->
  chat_endpoint (Ok (VDict fields)) = Ok (text_only default_help).
Proof.
  intros Hc Hm T1 T2. unfold chat_endpoint.
  destruct (no_payload_route fields "appCommandPayload" Hc) as (v1 & -> & F1);
    [now left|]. simpl. rewrite F1.
  destruct (no_payload_route fields "messagePayload" Hc) as (v2 & -> & F2);
    [now right|]. simpl. rewrite F2.
  destruct (event_thread_readable fields Hm) as (tn & -> & _). simpl.
  unfold get_or_none in T1, T2. now rewrite T1, T2.
Qed.

(** X19: on the MESSAGE branch the question is [argumentText] when that is
    truthy and [text] otherwise; for an ASCII question, when it is blank the
    usage text is returned, and if not the pipeline runs on the stripped
    question with the thread name of the event. *)
Theorem chat_endpoint_message_text
    (fields mf : list (string * value)) (raw : string) :
  no_chat_payload fields = true ->
  thread_readable fields = true ->
  dict_get fields "type" = Some (VStr "MESSAGE") ->
  dict_get fields "message" = Some (VDict mf) ->
  message_text mf = VStr raw -> is_ascii raw = true ->
  chat_endpoint (Ok (VDict fields))
  = if String.eqb (strip raw) "" then Ok (text_only usage_slash)
    else ask_reply (strip raw) (event_thread_name_plain fields).
Proof.
  intros Hc Hm Ht Hmsg Hraw _. unfold chat_endpoint.
  destruct (no_payload_route fields "appCommandPayload" Hc) as (v1 & -> & F1);
    [now left|]. simpl. rewrite F1.
  destruct (no_payload_route fields "messagePayload" Hc) as (v2 & -> & F2);
    [now right|]. simpl. rewrite F2.
  destruct (event_thread_readable fields Hm) as (tn & -> & <-). simpl.
  rewrite Ht, Hmsg. simpl.
  unfold message_text, py_or, get_or_none in Hraw.
  destruct (dict_get mf "argumentText") as [arg|]; simpl.
  - destruct (truthy arg) eqn:Ta; simpl.
    + simpl in Hraw. rewrite Ta in Hraw. rewrite Hraw. reflexivity.
    + destruct (dict_get mf "text") as [txt|]; simpl; unfold py_or.
      * destruct (truthy txt) eqn:Tt; simpl in Hraw; rewrite ?Tt in Hraw;
          [rewrite Hraw; reflexivity|].
        injection Hraw as <-. reflexivity.
      * simpl in Hraw. injection Hraw as <-. reflexivity.
  - destruct (dict_get mf "text") as [txt|]; simpl; unfold py_or.
    + destruct (truthy txt) eqn:Tt; simpl in Hraw; rewrite ?Tt in Hraw;
        [rewrite Hraw; reflexivity|].
      injection Hraw as <-. reflexivity.
    + simpl in Hraw. injection Hraw as <-. reflexivity.
Qed.

(** ** The token check and the reply helper *)

(** X20: for an event that is an object, [_check_token] passes exactly when
    no token is configured, or the header carries the configured token, or
    the body's [token] entry is the configured token; in every other case it
    raises status 401. *)
Theorem check_token_passes_iff
    (header_tok : option string) (fields : list (string * value)) :
  (_check_token header_tok (VDict fields) = Ok tt
   <-> VERIFY_TOKEN = "" \/ header_tok = Some VERIFY_TOKEN
       \/ dict_get fields "token" = Some (VStr VERIFY_TOKEN))
  /\ (_check_token header_tok (VDict fields) = Ok tt
      \/ _check_token header_tok (VDict fields)
         = Raise (HTTPException 401 "Bad token")).
Proof.
  unfold _check_token. simpl.
  destruct (String.eqb_spec VERIFY_TOKEN "") as [E|N]; simpl.
  { split; [|now left]. split; auto. }
  assert (B : eq_str (match dict_get fields "token" with
                      | Some v => v | None => VNone end) VERIFY_TOKEN = true
              <-> dict_get fields "token" = Some (VStr VERIFY_TOKEN)).
  { destruct (dict_get fields "token") as [v|]; [|simpl; split; discriminate].
    destruct v; simpl; try (split; [discriminate | intros [=]]).
    split; [intros H; apply String.eqb_eq in H; now subst|].
    intros [= ->]. apply String.eqb_refl. }
  destruct header_tok as [h|]; simpl.
  - destruct (String.eqb_spec h VERIFY_TOKEN) as [->|Nh]; simpl.
    + split; [|now left]. split; auto.
    + destruct (eq_str _ VERIFY_TOKEN) eqn:Q; simpl.
      * split; [|now left]. split; [|reflexivity].
        intros _. right. right. now apply B.
      * split; [|now right]. split; [discriminate|].
        intros [H|[[= H]|H]]; [congruence | congruence |].
        apply B in H. congruence.
  - destruct (eq_str _ VERIFY_TOKEN) eqn:Q; simpl.
    + split; [|now left]. split; [|reflexivity].
      intros _. right. right. now apply B.
    + split; [|now right]. split; [discriminate|].
      intros [H|[H|H]]; [congruence | discriminate |].
      apply B in H. congruence.
Qed.

(** X21: the helper [_reply_text] and the dict the pipeline builds agree when
    the thread name is a non-empty string; without one the helper leaves the
    [thread] entry out, while the pipeline keeps it with [None]. *)
Theorem reply_text_and_response_dict (text : string) (thread_name : option string) :
  let v := match thread_name with Some n => VStr n | None => VNone end in
  (truthy v = true -> _reply_text text thread_name = response_dict text v)
  /\ (truthy v = false ->
      _reply_text text thread_name = text_only text
      /\ reply_thread (_reply_text text thread_name) = None
      /\ reply_thread (response_dict text v) = Some VNone).
Proof.
  destruct thread_name as [n|]; simpl.
  - unfold _reply_text, response_dict. simpl.
    destruct (String.eqb n ""); simpl; split; intros H;
      try discriminate; try reflexivity; repeat split.
  - split; [discriminate|]. intros _. repeat split.
Qed.

End App.

(** ** The answer composer *)

Lemma context_rows_firstn (rows : list row) : context_rows rows = firstn 50 rows.
Proof.
  unfold context_rows.
  destruct (Nat.le_ge_cases (List.length rows) 50) as [H|H].
  - rewrite Nat.min_l by exact H.
    now rewrite firstn_all, firstn_all2.
  - now rewrite Nat.min_r.
Qed.

Lemma context_snippets_firstn (rows : list row) :
  context_snippets rows = json_dumps (VList (map VDict (firstn 50 rows))).
Proof.
  destruct rows as [|r rows]; [reflexivity|].
  unfold context_snippets. now rewrite context_rows_firstn.
Qed.

(** C5 (as amended): without a configured model, [llm_answer] returns the
    fixed fallback text, which holds the number of rows in decimal, the
    question as given, and the canned sentence that no major anomalies were
    detected, whatever the rows hold.  When the model call raises, [llm_answer]
    returns a text naming the error; that text is never a fallback text, and
    no exception leaves [llm_answer]. *)
Theorem llm_answer_degraded (user_prompt : string) (rows : list row) :
  llm_answer None user_prompt rows = Ok (fallback_text user_prompt rows)
  /\ contains (fallback_text user_prompt rows) (str_of_nat (List.length rows)) = true
  /\ contains (fallback_text user_prompt rows) user_prompt = true
  /\ contains (fallback_text user_prompt rows) "no major anomalies detected" = true
  /\ (forall (generate_content : string -> result string) (e : exn),
        generate_content (llm_prompt user_prompt rows) = Raise e ->
        llm_answer (Some generate_content) user_prompt rows = Ok (vertex_error_text e)
        /\ forall q' rows', vertex_error_text e <> fallback_text q' rows').
Proof.
  split; [reflexivity|]. unfold fallback_text. repeat split.
  - apply contains_middle.
  - rewrite <- !append_assoc. apply contains_end.
  - rewrite <- append_assoc.
    change (" found), no major anomalies detected. Question: " ++ user_prompt)
      with (" found), " ++ "no major anomalies detected"
            ++ ". Question: " ++ user_prompt).
    rewrite <- append_assoc. apply contains_middle.
  - unfold llm_answer. now rewrite H.
  - unfold vertex_error_text, fallback_text. simpl. discriminate.
Qed.

(** C6: the text of the rows in the prompt is the JSON of the first 50 rows
    at most; the prompt, and so what the model is called with, is the same as
    for the list cut to its first 50 rows. *)
Theorem llm_prompt_at_most_50_rows (generate_content : string -> result string)
    (user_prompt : string) (rows : list row) :
  (List.length (context_rows rows) <= 50)%nat
  /\ context_rows rows = firstn 50 rows
  /\ context_snippets rows = json_dumps (VList (map VDict (firstn 50 rows)))
  /\ llm_prompt user_prompt rows = llm_prompt user_prompt (firstn 50 rows)
  /\ llm_answer (Some generate_content) user_prompt rows
     = match generate_content (llm_prompt user_prompt (firstn 50 rows)) with
       | Ok text => Ok text
       | Raise e => Ok (vertex_error_text e)
       end.
Proof.
  assert (P : llm_prompt user_prompt rows = llm_prompt user_prompt (firstn 50 rows)).
  { unfold llm_prompt. rewrite !context_snippets_firstn.
    now rewrite firstn_firstn, Nat.min_id. }
  repeat split.
  - rewrite context_rows_firstn. apply firstn_le_length.
  - apply context_rows_firstn.
  - apply context_snippets_firstn.
  - exact P.
  - unfold llm_answer. now rewrite P.
Qed.


(** ** The alert formatter *)

Lemma notification_starts_with_emoji (utc_now_iso : string) (str_upper : string -> string)
    (alert : ErrorAlert) :
  String.prefix (severity_emoji str_upper alert) (format_error_notification utc_now_iso str_upper alert)
  = true.
Proof.
  unfold format_error_notification.
  destruct (recent_logs alert) as [[|l ls]|];
    (destruct (stack_trace alert) as [st|]; [destruct (String.eqb st "")|]);
    (destruct (affected_users alert) as [n|]; [destruct (n =? 0)|]);
    repeat apply prefix_append_l; apply prefix_refl.
Qed.

(** ** The filter parser on the worked examples *)

(** C2: the three worked examples, with the default of 7 days. *)
Theorem parse_worked_examples (int_max_str_digits : nat) :
  parse_prompt_and_filters int_max_str_digits 7 "why fail? service:auth since:3"
  = Ok ("why fail?", Some "auth", 3)
  /\ parse_prompt_and_filters int_max_str_digits 7 "service: since:abc test"
     = Ok ("test", Some "", 7)
  /\ parse_prompt_and_filters int_max_str_digits 7 "since:0 ping"
     = Ok ("ping", None, 1).
Proof. repeat split; reflexivity. Qed.

Lemma upper_lower_char (c : ascii) : upper_char (lower_char c) = upper_char c.
Proof. destruct c as [[] [] [] [] [] [] [] []]; reflexivity. Qed.

Lemma lower_upper_char (c : ascii) : lower_char (upper_char c) = lower_char c.
Proof. destruct c as [[] [] [] [] [] [] [] []]; reflexivity. Qed.

Lemma upper_lower (s : string) : upper (lower s) = upper s.
Proof.
  unfold upper, lower. induction s as [|c s IH]; simpl; [reflexivity|].
  now rewrite upper_lower_char, IH.
Qed.

Lemma lower_upper (s : string) : lower (upper s) = lower s.
Proof.
  unfold upper, lower. induction s as [|c s IH]; simpl; [reflexivity|].
  now rewrite lower_upper_char, IH.
Qed.

(** Two texts have the same upper-case form exactly when they have the same
    lower-case form. *)
Lemma upper_eq_iff_lower_eq (s t : string) : upper s = upper t <-> lower s = lower t.
Proof.
  split; intros H.
  - rewrite <- (lower_upper s), <- (lower_upper t). now rewrite H.
  - rewrite <- (upper_lower s), <- (upper_lower t). now rewrite H.
Qed.

Lemma severity_emoji_lookup (str_upper : string -> string) (alert : ErrorAlert) :
  (str_upper (severity alert) = "LOW" -> severity_emoji str_upper alert = "🟡")
  /\ (str_upper (severity alert) = "MEDIUM" -> severity_emoji str_upper alert = "🟠")
  /\ (str_upper (severity alert) = "HIGH" -> severity_emoji str_upper alert = "🔴")
  /\ (str_upper (severity alert) = "CRITICAL"
      -> severity_emoji str_upper alert = "🚨")
  /\ (severity_emoji str_upper alert = "⚪"
      <-> ~ In (str_upper (severity alert)) ["LOW"; "MEDIUM"; "HIGH"; "CRITICAL"]).
Proof.
  unfold severity_emoji.
  repeat (split; [intros ->; reflexivity|]).
  unfold severity_table, table_get.
  destruct (String.eqb_spec "LOW" (str_upper (severity alert))) as [<-|N1].
  { split; [discriminate | intros H; exfalso; apply H; simpl; auto]. }
  destruct (String.eqb_spec "MEDIUM" (str_upper (severity alert))) as [<-|N2].
  { split; [discriminate | intros H; exfalso; apply H; simpl; auto]. }
  destruct (String.eqb_spec "HIGH" (str_upper (severity alert))) as [<-|N3].
  { split; [discriminate | intros H; exfalso; apply H; simpl; auto]. }
  destruct (String.eqb_spec "CRITICAL" (str_upper (severity alert))) as [<-|N4].
  { split; [discriminate | intros H; exfalso; apply H; simpl; auto]. }
  split; [|reflexivity].
  intros _ [H|[H|[H|[H|[]]]]]; congruence.
Qed.

(** C10: the glyph is looked up under the upper-cased severity, whatever
    [str.upper] does to it: each of LOW, MEDIUM, HIGH and CRITICAL gets its
    glyph, the white circle is used exactly when the upper-cased severity is
    none of the four, and the notification starts with the glyph.  As
    [str.upper] upper-cases ASCII text letter by letter, for an ASCII
    severity the lookup is blind to letter case: a severity that spells one
    of the four names in any mix of cases gets the glyph of that name, and
    any other gets the white circle. *)
Theorem severity_emoji_case_insensitive (utc_now_iso : string)
    (str_upper : string -> string) (alert : ErrorAlert) :
  ((str_upper (severity alert) = "LOW" -> severity_emoji str_upper alert = "🟡")
   /\ (str_upper (severity alert) = "MEDIUM"
       -> severity_emoji str_upper alert = "🟠")
   /\ (str_upper (severity alert) = "HIGH" -> severity_emoji str_upper alert = "🔴")
   /\ (str_upper (severity alert) = "CRITICAL"
       -> severity_emoji str_upper alert = "🚨")
   /\ (severity_emoji str_upper alert = "⚪"
       <-> ~ In (str_upper (severity alert)) ["LOW"; "MEDIUM"; "HIGH"; "CRITICAL"]))
  /\ String.prefix (severity_emoji str_upper alert)
       (format_error_notification utc_now_iso str_upper alert) = true
  /\ (upper_on_ascii str_upper -> is_ascii (severity alert) = true ->
      (lower (severity alert) = "low" -> severity_emoji str_upper alert = "🟡")
      /\ (lower (severity alert) = "medium"
          -> severity_emoji str_upper alert = "🟠")
      /\ (lower (severity alert) = "high" -> severity_emoji str_upper alert = "🔴")
      /\ (lower (severity alert) = "critical"
          -> severity_emoji str_upper alert = "🚨")
      /\ (severity_emoji str_upper alert = "⚪"
          <-> ~ In (lower (severity alert)) ["low"; "medium"; "high"; "critical"])).
Proof.
  split; [apply severity_emoji_lookup|].
  split; [apply notification_starts_with_emoji|].
  intros U A.
  destruct (severity_emoji_lookup str_upper alert) as (L & M & H & C & D).
  rewrite (U _ A) in L, M, H, C, D.
  assert (E : forall name,
             upper (severity alert) = upper name
             <-> lower (severity alert) = lower name)
    by (intros name; apply upper_eq_iff_lower_eq).
  split; [intros X; apply L, (E "LOW"), X|].
  split; [intros X; apply M, (E "MEDIUM"), X|].
  split; [intros X; apply H, (E "HIGH"), X|].
  split; [intros X; apply C, (E "CRITICAL"), X|].
  rewrite D. split; intros N I; apply N; simpl in *.
  - destruct I as [I|[I|[I|[I|[]]]]]; symmetry in I.
    + left. symmetry. now apply (E "LOW").
    + right; left. symmetry. now apply (E "MEDIUM").
    + right; right; left. symmetry. now apply (E "HIGH").
    + right; right; right; left. symmetry. now apply (E "CRITICAL").
  - destruct I as [I|[I|[I|[I|[]]]]]; symmetry in I.
    + left. symmetry. now apply (E "LOW").
    + right; left. symmetry. now apply (E "MEDIUM").
    + right; right; left. symmetry. now apply (E "HIGH").
    + right; right; right; left. symmetry. now apply (E "CRITICAL").
Qed.

(** * Instances and counterexamples *)

(** ** The filter parser *)

Lemma parse_total_since_days_ge_1_witness :
  1 <= 7
  /\ exists (prompt : string) (service_ : option string) (since_days : Z),
       parse_prompt_and_filters 4300 7 "since:0 ping"
       = Ok (prompt, service_, since_days)
       /\ 1 <= since_days.
Proof.
  split; [lia|].
  destruct (parse_total_since_days_ge_1 4300 7 "since:0 ping")
    as (q & s & d & E & _ & H & _).
  exists q, s, d. split; [exact E | apply H; lia].
Defined.

(** With a default of 0 days and no [since:] token, the parser returns 0. *)
Lemma parse_default_below_1 :
  parse_prompt_and_filters 4300 0 "ping" = Ok ("ping", None, 0)
  /\ ~ (exists (prompt : string) (service_ : option string) (since_days : Z),
          parse_prompt_and_filters 4300 0 "ping" = Ok (prompt, service_, since_days)
          /\ 1 <= since_days).
Proof.
  split; [reflexivity|].
  intros (prompt & service_ & since_days & E & H).
  vm_compute in E. injection E as _ _ <-. lia.
Qed.

Lemma parse_idempotent_on_question_witness :
  parse_prompt_and_filters 4300 7 "why fail? service:auth since:3"
  = Ok ("why fail?", Some "auth", 3)
  /\ parse_prompt_and_filters 4300 7 "why fail?" = Ok ("why fail?", None, 7).
Proof.
  split; [reflexivity|].
  apply (parse_idempotent_on_question 4300 7 "why fail? service:auth since:3"
           "why fail?" (Some "auth") 3).
  reflexivity.
Defined.

(** ** The context fetcher *)

Lemma fetch_logs_service_condition_witness :
  fetch_logs (Some "demo") "chat_alert_test" "alerts" 200 "ts" "service"
    (fun _ => Ok echo_client) (fun _ => Ok sample_start_ts) (Some "Auth") 7
  = echo_client
      (fetch_query "chat_alert_test" "alerts" 200 "ts" "service" "demo"
         (Some "Auth") sample_start_ts)
  /\ fetch_where "ts" "service" (Some "Auth") sample_start_ts
     = ["ts >= TIMESTAMP('2026-01-01T00:00:00+00:00')";
        "LOWER(service) = LOWER(@service)"]
  /\ contains
       (q_sql (fetch_query "chat_alert_test" "alerts" 200 "ts" "service" "demo"
                 (Some "Auth") sample_start_ts))
       ("WHERE ts >= TIMESTAMP('2026-01-01T00:00:00+00:00')"
        ++ " AND LOWER(service) = LOWER(@service)" ++ nl) = true
  /\ q_parameters
       (fetch_query "chat_alert_test" "alerts" 200 "ts" "service" "demo"
          (Some "Auth") sample_start_ts)
     = Some [("service", "STRING", "Auth")].
Proof.
  pose proof (fetch_logs_service_condition (Some "demo") "chat_alert_test" "alerts"
                200 "ts" "service" (fun _ => Ok echo_client)
                (fun _ => Ok sample_start_ts) "demo" echo_client sample_start_ts
                (Some "Auth") 7 eq_refl ltac:(discriminate) eq_refl eq_refl)
    as H.
  cbv zeta in H. destruct H as [H _].
  destruct (H "Auth" eq_refl ltac:(discriminate)) as (H1 & H2 & H3 & H4).
  split; [exact H1 | split; [exact H2 | split; [exact H3 | exact H4]]].
Defined.

(** The empty string is a present filter, and nothing asks the store to match
    it: the WHERE clause that is built holds the time condition alone, and no
    query reaches the client, which here answers every query with a row. *)
Lemma fetch_empty_service_unfiltered :
  fetch_where "ts" "service" (Some "") sample_start_ts
  = ["ts >= TIMESTAMP('2026-01-01T00:00:00+00:00')"]
  /\ q_sql (fetch_query "chat_alert_test" "alerts" 200 "ts" "service" "demo"
              (Some "") sample_start_ts)
     = fetch_sql "chat_alert_test" "alerts" 200 "ts" "demo"
         "ts >= TIMESTAMP('2026-01-01T00:00:00+00:00')"
  /\ fetch_logs (Some "demo") "chat_alert_test" "alerts" 200 "ts" "service"
       (fun _ => Ok echo_client) (fun _ => Ok sample_start_ts) (Some "") 7
     = Ok []
  /\ (forall q, echo_client q <> Ok []).
Proof.
  split; [reflexivity|]. split; [reflexivity|]. split; [reflexivity|].
  intros q. discriminate.
Qed.

Lemma fetch_logs_empty_on_failure_witness :
  fetch_logs None "chat_alert_test" "alerts" 200 "ts" "service"
    (fun _ => Ok echo_client) (fun _ => Ok sample_start_ts) (Some "auth") 7
  = Ok []
  /\ fetch_logs (Some "demo") "chat_alert_test" "alerts" 200 "ts" "service"
       (fun _ => Ok failing_client) (fun _ => Ok sample_start_ts) (Some "auth") 7
     = Ok [].
Proof.
  split.
  - apply fetch_logs_empty_on_failure. left. reflexivity.
  - apply fetch_logs_empty_on_failure. right.
    exists "demo", (OtherError "403 Forbidden"). split; reflexivity.
Defined.

(** ** The answer composer *)

Lemma llm_answer_degraded_witness :
  (fun _ : string => @Raise string (OtherError "503 unavailable"))
    (llm_prompt "why?" [critical_row])
  = Raise (OtherError "503 unavailable")
  /\ llm_answer (Some (fun _ => Raise (OtherError "503 unavailable"))) "why?"
       [critical_row]
     = Ok "(Vertex error: 503 unavailable)".
Proof.
  split; [reflexivity|].
  apply (proj2 (proj2 (proj2 (proj2 (llm_answer_degraded "why?" [critical_row]))))
           (fun _ => Raise (OtherError "503 unavailable"))
           (OtherError "503 unavailable") eq_refl).
Defined.

(** Without a model the fallback states a finding about the rows, here about
    a row of CRITICAL severity, that nothing computed. *)
Lemma fallback_states_a_finding :
  llm_answer None "why?" [critical_row]
  = Ok ("(Vertex not configured) Based on recent rows (1 found), "
        ++ "no major anomalies detected. Question: why?")
  /\ contains (fallback_text "why?" [critical_row]) "no major anomalies detected"
     = true.
Proof. split; reflexivity. Qed.

(** ** The chat router *)

Lemma added_to_space_greeting_witness :
  dict_get added_event "type" = Some (VStr "ADDED_TO_SPACE")
  /\ no_chat_payload added_event = true
  /\ thread_readable added_event = true
  /\ chat_endpoint 4300 (Some "demo") "chat_alert_test" "alerts" 7 200 "ts" "service"
       (fun _ => Ok echo_client) (fun _ => Ok sample_start_ts) None
       (Ok (VDict added_event))
     = Ok (text_only greeting).
Proof.
  split; [reflexivity|]. split; [reflexivity|]. split; [reflexivity|].
  apply (proj2 (added_to_space_greeting 4300 (Some "demo") "chat_alert_test"
                  "alerts" 7 200 "ts" "service" (fun _ => Ok echo_client)
                  (fun _ => Ok sample_start_ts) None added_event eq_refl)).
  split; reflexivity.
Defined.

(** An ADDED_TO_SPACE event with a slash-command payload gets the usage text,
    and one whose [message] or [chat] is a string makes the handler raise. *)
Lemma added_to_space_not_greeted :
  py_get added_event_with_payload "type" VNone = Ok (VStr "ADDED_TO_SPACE")
  /\ chat_endpoint 4300 (Some "demo") "chat_alert_test" "alerts" 7 200 "ts" "service"
       (fun _ => Ok echo_client) (fun _ => Ok sample_start_ts) None
       (Ok added_event_with_payload)
     = Ok (text_only usage_slash)
  /\ text_only usage_slash <> text_only greeting
  /\ py_get added_event_with_text_message "type" VNone = Ok (VStr "ADDED_TO_SPACE")
  /\ chat_endpoint 4300 (Some "demo") "chat_alert_test" "alerts" 7 200 "ts" "service"
       (fun _ => Ok echo_client) (fun _ => Ok sample_start_ts) None
       (Ok added_event_with_text_message)
     = Raise AttributeError
  /\ py_get added_event_with_text_chat "type" VNone = Ok (VStr "ADDED_TO_SPACE")
  /\ chat_endpoint 4300 (Some "demo") "chat_alert_test" "alerts" 7 200 "ts" "service"
       (fun _ => Ok echo_client) (fun _ => Ok sample_start_ts) None
       (Ok added_event_with_text_chat)
     = Raise AttributeError.
Proof. repeat split; try reflexivity. discriminate. Qed.

Lemma reply_thread_field_witness :
  event_route message_event_in_thread
  = Ok (Ask usage_slash "ping" (VStr "spaces/A/threads/B"))
  /\ event_thread_name message_event_in_thread = Ok (VStr "spaces/A/threads/B")
  /\ exists response_text : string,
       chat_endpoint 4300 None "chat_alert_test" "alerts" 7 200 "ts" "service"
         (fun _ => Ok echo_client) (fun _ => Ok sample_start_ts) None
         (Ok message_event_in_thread)
       = Ok (response_dict response_text (VStr "spaces/A/threads/B"))
       /\ reply_thread (response_dict response_text (VStr "spaces/A/threads/B"))
          = Some (VDict [("name", VStr "spaces/A/threads/B")]).
Proof.
  split; [reflexivity|].
  destruct (reply_thread_field 4300 None "chat_alert_test" "alerts" 7 200 "ts"
              "service" (fun _ => Ok echo_client) (fun _ => Ok sample_start_ts)
              None message_event_in_thread) as [T [P | [A _]]].
  - split; [exact T | exact P].
  - discriminate A.
Defined.

(** The greeting does not echo the thread of the event, and a pipeline reply
    to an event without a thread keeps a [thread] entry, set to [None]. *)
Lemma thread_not_echoed_nor_omitted :
  event_thread_name added_event_in_thread = Ok (VStr "spaces/A/threads/B")
  /\ chat_endpoint 4300 None "chat_alert_test" "alerts" 7 200 "ts" "service"
       (fun _ => Ok echo_client) (fun _ => Ok sample_start_ts) None
       (Ok added_event_in_thread)
     = Ok (VDict [("text", VStr greeting)])
  /\ event_thread_name message_event_no_thread = Ok VNone
  /\ chat_endpoint 4300 None "chat_alert_test" "alerts" 7 200 "ts" "service"
       (fun _ => Ok echo_client) (fun _ => Ok sample_start_ts) None
       (Ok message_event_no_thread)
     = Ok (VDict [("text",
                   VStr ("**Q:** ping" ++ nl
                         ++ "**A:** (Vertex not configured) Based on recent rows "
                         ++ "(0 found), no major anomalies detected. Question: ping"));
                  ("thread", VNone)]).
Proof. repeat split; reflexivity. Qed.

(** ** The alert formatter *)

Lemma severity_emoji_case_insensitive_witness :
  upper_on_ascii upper
  /\ is_ascii (severity sample_alert) = true
  /\ lower (severity sample_alert) = "critical"
  /\ severity_emoji upper sample_alert = "🚨".
Proof.
  split; [intros s _; reflexivity|]. split; [reflexivity|].
  split; [reflexivity|].
  apply (proj2 (proj2 (severity_emoji_case_insensitive sample_start_ts upper
                         sample_alert)));
    [intros s _; reflexivity | reflexivity | reflexivity].
Defined.

(** * Further properties of the alert formatter *)

Lemma py_len_app (a b : string) : py_len (a ++ b) = (py_len a + py_len b)%nat.
Proof.
  induction a as [|c a IH]; simpl; [reflexivity|].
  destruct (is_continuation c); simpl; now rewrite IH.
Qed.

(** [s[:n]] is a prefix of [s] ... *)
Lemma py_take_prefix (n : nat) (s : string) : String.prefix (py_take n s) s = true.
Proof.
  revert n; induction s as [|c s IH]; intros n; simpl; [reflexivity|].
  destruct (is_continuation c); [|destruct n as [|n]; [reflexivity|]];
    simpl; rewrite IH; now destruct (Ascii.ascii_dec c c).
Qed.

(** ... of [n] code points when [s] has as many ... *)
Lemma py_len_take (n : nat) (s : string) :
  (n <= py_len s)%nat -> py_len (py_take n s) = n.
Proof.
  revert n; induction s as [|c s IH]; intros n; simpl.
  - intros H. now destruct n; [|lia].
  - destruct (is_continuation c) eqn:C; simpl; rewrite ?C.
    + apply IH.
    + destruct n as [|n]; [reflexivity|]. simpl. rewrite C.
      intros H. rewrite IH; lia.
Qed.

(** ... and never of more. *)
Lemma py_len_take_le (n : nat) (s : string) : (py_len (py_take n s) <= n)%nat.
Proof.
  revert n; induction s as [|c s IH]; intros n; simpl.
  - destruct n; simpl; lia.
  - destruct (is_continuation c) eqn:C; simpl; rewrite ?C; [apply IH|].
    destruct n as [|n]; simpl; rewrite ?C; [lia|].
    specialize (IH n). lia.
Qed.

Lemma shown_trace_length (st : string) : (py_len (shown_trace st) <= 203)%nat.
Proof.
  unfold shown_trace. destruct (Nat.ltb_spec 200 (py_len st)); [|lia].
  rewrite py_len_app. pose proof (py_len_take_le 200 st).
  change (py_len "...") with 3%nat. lia.
Qed.

(** X22: a stack trace of at most 200 characters (code points) is shown whole
    between the code fences of the notification; a longer one is shown as its
    first 200 characters, a prefix of the trace, followed by three dots. *)
Theorem notification_shows_trace (utc_now_iso : string) (str_upper : string -> string)
    (alert : ErrorAlert)
    (st : string) :
  stack_trace alert = Some st -> st <> "" ->
  contains (format_error_notification utc_now_iso str_upper alert)
    ("**Stack Trace:** ```" ++ shown_trace st ++ "```") = true
  /\ ((py_len st <= 200)%nat -> shown_trace st = st)
  /\ ((200 < py_len st)%nat ->
      shown_trace st = py_take 200 st ++ "..."
      /\ py_len (py_take 200 st) = 200%nat
      /\ String.prefix (py_take 200 st) st = true).
Proof.
  intros H N. split.
  - unfold format_error_notification. rewrite H.
    apply String.eqb_neq in N. rewrite N.
    fold (shown_trace st).
    apply contains_append_r.
    destruct (recent_logs alert) as [[|l ls]|];
      [| apply contains_append_r |];
      apply contains_append_l, contains_append_l, contains_prefix, prefix_refl.
  - unfold shown_trace. split; intros L.
    + apply Nat.ltb_ge in L. now rewrite L.
    + split; [|split].
      * apply Nat.ltb_lt in L. now rewrite L.
      * apply py_len_take. lia.
      * apply py_take_prefix.
Qed.

(** X23: the stack trace adds at most 227 characters (code points) to the
    notification, however long it is. *)
Theorem notification_length_bounded (utc_now_iso : string) (str_upper : string -> string)
    (alert : ErrorAlert)
    (st : option string) :
  (py_len (format_error_notification utc_now_iso str_upper (with_stack_trace alert st))
   <= py_len
        (format_error_notification utc_now_iso str_upper (with_stack_trace alert None))
      + 227)%nat.
Proof.
  unfold format_error_notification, with_stack_trace, severity_emoji.
  cbn [service error_type message timestamp stack_trace affected_users severity
       recent_logs environment].
  destruct st as [st|]; [|apply Nat.le_add_r].
  destruct (String.eqb st ""); [apply Nat.le_add_r|].
  fold (shown_trace st). pose proof (shown_trace_length st) as B.
  destruct (recent_logs alert) as [[|l ls]|];
    repeat rewrite !py_len_app;
    change (py_len nl) with 1%nat;
    change (py_len "**Stack Trace:** ```") with 20%nat;
    change (py_len "```") with 3%nat; lia.
Qed.

(** X25: a count of affected users that is zero is treated as a missing
    one; any other count is named in the notification, after a tilde. *)
Theorem notification_affected_users (utc_now_iso : string) (str_upper : string -> string)
    (alert : ErrorAlert)
    (n : Z) :
  format_error_notification utc_now_iso str_upper (with_affected_users alert (Some 0))
  = format_error_notification utc_now_iso str_upper (with_affected_users alert None)
  /\ (n <> 0 ->
      contains
        (format_error_notification utc_now_iso str_upper (with_affected_users alert (Some n)))
        ("**Affected Users:** ~" ++ str_of_Z n) = true).
Proof.
  split; [reflexivity|]. intros N.
  unfold format_error_notification, with_affected_users.
  cbn [service error_type message timestamp stack_trace affected_users severity
       recent_logs environment].
  apply Z.eqb_neq in N. rewrite N.
  apply contains_append_r.
  destruct (recent_logs alert) as [[|l ls]|]; [| apply contains_append_r |];
    (destruct (stack_trace alert) as [st|];
     [destruct (String.eqb st ""); [| apply contains_append_r] |]);
    apply contains_append_l, contains_append_l, contains_prefix, prefix_refl.
Qed.

(** X26: an empty list of recent logs is treated as a missing one; for any
    other list the notification gives the number of entries, not the
    entries. *)
Theorem notification_recent_logs (utc_now_iso : string) (str_upper : string -> string)
    (alert : ErrorAlert)
    (logs : list value) :
  format_error_notification utc_now_iso str_upper (with_recent_logs alert (Some []))
  = format_error_notification utc_now_iso str_upper (with_recent_logs alert None)
  /\ (logs <> [] ->
      format_error_notification utc_now_iso str_upper (with_recent_logs alert (Some logs))
      = format_error_notification utc_now_iso str_upper
          (with_recent_logs alert (Some (repeat VNone (List.length logs))))
      /\ contains
           (format_error_notification utc_now_iso str_upper
              (with_recent_logs alert (Some logs)))
           ("**Recent Logs:** " ++ str_of_nat (List.length logs)
            ++ " entries available") = true).
Proof.
  split; [reflexivity|]. intros N.
  destruct logs as [|l ls]; [congruence|]. split.
  - unfold format_error_notification, with_recent_logs, severity_emoji.
    cbn [service error_type message timestamp stack_trace affected_users severity
         recent_logs environment repeat List.length].
    now rewrite repeat_length.
  - unfold format_error_notification, with_recent_logs.
    cbn [service error_type message timestamp stack_trace affected_users severity
         recent_logs environment].
    apply contains_append_r, contains_append_l, contains_append_l,
      contains_prefix, prefix_refl.
Qed.

(** * Instances of the further properties *)

Lemma parse_blank_text_witness :
  parse_prompt_and_filters 4300 7 "   " = Ok ("", None, 7).
Proof. apply (parse_blank_text 4300 7 "   "). reflexivity. Defined.

Lemma parse_question_is_retained_tokens_witness :
  is_ascii "why service:auth did it fail since:3" = true
  /\ exists (q : string) (s : option string) (d : Z),
       parse_prompt_and_filters 4300 7 "why service:auth did it fail since:3"
       = Ok (q, s, d)
       /\ q = "why did it fail"
       /\ split q = ["why"; "did"; "it"; "fail"].
Proof.
  split; [reflexivity|].
  destruct (parse_question_is_retained_tokens 4300 7
              "why service:auth did it fail since:3") as (q & s & d & E & H).
  destruct (H eq_refl) as [Hq Hs].
  exists q, s, d. split; [exact E|]. split; [exact Hq | exact Hs].
Defined.

Lemma parse_without_filters_witness :
  parse_prompt_and_filters 4300 7 "  why   did it fail? "
  = Ok ("why did it fail?", None, 7).
Proof.
  apply (parse_without_filters 4300 7 "  why   did it fail? "); reflexivity.
Defined.

Lemma parse_appended_service_wins_witness :
  parse_prompt_and_filters 4300 7 "why service:a since:3 SERVICE:Auth"
  = Ok ("why", Some "Auth", 3).
Proof.
  apply (parse_appended_service_wins 4300 7 "why service:a since:3" "SERVICE:"
           "Auth" "why" (Some "a") 3); reflexivity.
Defined.

Lemma parse_appended_since_witness :
  parse_prompt_and_filters 4300 7 "why since:3 Since:abc" = Ok ("why", None, 3).
Proof.
  apply (parse_appended_since 4300 7 "why since:3" "Since:" "abc" "why" None 3);
    reflexivity.
Defined.

Lemma parse_service_absent_iff_witness :
  Some "" = None
  <-> forallb (fun t => negb (is_service_token t)) (split "ping service:") = true.
Proof.
  apply (parse_service_absent_iff 4300 7 "ping service:" "ping" (Some "") 7);
    reflexivity.
Defined.

Lemma parse_appended_since_number_witness :
  parse_prompt_and_filters 4300 7 "why since:-5" = Ok ("why", None, 1).
Proof.
  apply (parse_appended_since_number 4300 7 "why" "why" None 7 (-5));
    [vm_compute; lia | reflexivity].
Defined.

Lemma fetch_sql_independent_of_service_witness :
  q_sql (fetch_query "chat_alert_test" "alerts" 200 "ts" "service" "demo"
           (Some "auth") sample_start_ts)
  = q_sql (fetch_query "chat_alert_test" "alerts" 200 "ts" "service" "demo"
             (Some "x' OR 1=1 --") sample_start_ts)
  /\ q_parameters (fetch_query "chat_alert_test" "alerts" 200 "ts" "service" "demo"
                     (Some "auth") sample_start_ts)
     = Some [("service", "STRING", "auth")].
Proof.
  apply (fetch_sql_independent_of_service "chat_alert_test" "alerts" 200 "ts"
           "service" "demo" "auth" "x' OR 1=1 --" sample_start_ts);
    discriminate.
Defined.

Lemma fetch_logs_rows_from_client_witness :
  exists (project : string) (client : Client) (start_ts : string),
    Some "demo" = Some project /\ project <> ""
    /\ (fun _ : string => Ok echo_client) project = Ok client
    /\ (fun _ : Z => Ok sample_start_ts) 7 = Ok start_ts
    /\ client (fetch_query "chat_alert_test" "alerts" 200 "ts" "service" project
                 (Some "auth") start_ts)
       = Ok [[("sql",
               VStr (fetch_sql "chat_alert_test" "alerts" 200 "ts" "demo"
                       ("ts >= TIMESTAMP('2026-01-01T00:00:00+00:00')"
                        ++ " AND LOWER(service) = LOWER(@service)")));
              ("parameters",
               VList [VList [VStr "service"; VStr "STRING"; VStr "auth"]])]].
Proof.
  apply (fetch_logs_rows_from_client (Some "demo") "chat_alert_test" "alerts" 200
           "ts" "service" (fun _ => Ok echo_client) (fun _ => Ok sample_start_ts)
           (Some "auth") 7);
    [reflexivity | discriminate].
Defined.


Lemma receive_alert_reports_both_witness :
  exists sent stored : bool,
    fst (send_chat_notification "https://chat.example/hook" post_500
           (format_error_notification sample_start_ts upper sample_alert) [])
    = Ok sent
    /\ fst (store_alert_in_bigquery (Some "demo") "chat_alert_test" "alerts"
              (fun _ => Ok echo_client) insert_ok sample_start_ts sample_alert [])
       = Ok stored
    /\ receive_alert (Some "demo") "chat_alert_test" "alerts"
         (fun _ => Ok echo_client) sample_start_ts "https://chat.example/hook"
         post_500 insert_ok sample_start_ts sample_start_ts upper sample_alert []
       = (Ok (VDict [("status", VStr "processed");
                     ("service", VStr (service sample_alert));
                     ("notification_sent", VBool sent);
                     ("bigquery_stored", VBool stored);
                     ("timestamp", VStr sample_start_ts)]),
          ([] ++ snd (send_chat_notification "https://chat.example/hook" post_500
                        (format_error_notification sample_start_ts upper sample_alert) [])
              ++ snd (store_alert_in_bigquery (Some "demo") "chat_alert_test"
                        "alerts" (fun _ => Ok echo_client) insert_ok
                        sample_start_ts sample_alert []))%list).
Proof.
  apply (receive_alert_reports_both (Some "demo") "chat_alert_test" "alerts"
           (fun _ => Ok echo_client) sample_start_ts "https://chat.example/hook"
           post_500 insert_ok sample_start_ts sample_start_ts upper sample_alert []).
  intros e. discriminate.
Defined.

Lemma receive_alert_post_raises_witness :
  receive_alert (Some "demo") "chat_alert_test" "alerts"
    (fun _ => Ok echo_client) sample_start_ts "https://chat.example/hook"
    post_crash insert_ok sample_start_ts sample_start_ts upper sample_alert []
  = (Raise TypeError,
     [PostCall "https://chat.example/hook"
        (post_body (format_error_notification sample_start_ts upper sample_alert)) 10]).
Proof.
  apply (receive_alert_post_raises (Some "demo") "chat_alert_test" "alerts"
           (fun _ => Ok echo_client) sample_start_ts "https://chat.example/hook"
           post_crash insert_ok sample_start_ts sample_start_ts upper sample_alert []
           TypeError); [discriminate | reflexivity].
Defined.

Lemma chat_endpoint_bad_body_witness :
  chat_endpoint 4300 None "chat_alert_test" "alerts" 7 200 "ts" "service"
    (fun _ => Ok echo_client) (fun _ => Ok sample_start_ts) None
    (Ok (VList [VStr "type"; VStr "MESSAGE"]))
  = Raise AttributeError.
Proof.
  apply (proj2 (chat_endpoint_bad_body 4300 None "chat_alert_test" "alerts" 7 200
                  "ts" "service" (fun _ => Ok echo_client)
                  (fun _ => Ok sample_start_ts) None)).
  reflexivity.
Defined.

Lemma chat_endpoint_payload_first_witness :
  chat_endpoint 4300 None "chat_alert_test" "alerts" 7 200 "ts" "service"
    (fun _ => Ok echo_client) (fun _ => Ok sample_start_ts) None
    (Ok (VDict [("type", VStr "MESSAGE"); ("chat", VDict both_payloads)]))
  = payload_reply 4300 None "chat_alert_test" "alerts" 7 200 "ts" "service"
      (fun _ => Ok echo_client) (fun _ => Ok sample_start_ts) None usage_slash
      (VDict [("message", VDict [("argumentText", VStr "")])]).
Proof.
  apply (chat_endpoint_payload_first 4300 None "chat_alert_test" "alerts" 7 200 "ts"
           "service" (fun _ => Ok echo_client) (fun _ => Ok sample_start_ts) None
           [("type", VStr "MESSAGE"); ("chat", VDict both_payloads)] both_payloads);
    reflexivity.
Defined.

Lemma chat_endpoint_default_help_witness :
  chat_endpoint 4300 None "chat_alert_test" "alerts" 7 200 "ts" "service"
    (fun _ => Ok echo_client) (fun _ => Ok sample_start_ts) None
    (Ok (VDict removed_event))
  = Ok (text_only default_help).
Proof. apply chat_endpoint_default_help; reflexivity. Defined.

Lemma chat_endpoint_message_text_witness :
  chat_endpoint 4300 None "chat_alert_test" "alerts" 7 200 "ts" "service"
    (fun _ => Ok echo_client) (fun _ => Ok sample_start_ts) None
    (Ok (VDict [("type", VStr "MESSAGE");
                ("message", VDict message_with_both_texts)]))
  = ask_reply 4300 None "chat_alert_test" "alerts" 7 200 "ts" "service"
      (fun _ => Ok echo_client) (fun _ => Ok sample_start_ts) None
      "why? service:auth" VNone.
Proof.
  apply (chat_endpoint_message_text 4300 None "chat_alert_test" "alerts" 7 200 "ts"
           "service" (fun _ => Ok echo_client) (fun _ => Ok sample_start_ts) None
           [("type", VStr "MESSAGE"); ("message", VDict message_with_both_texts)]
           message_with_both_texts " why? service:auth ");
    reflexivity.
Defined.

Lemma notification_shows_trace_witness :
  String.length accented_trace = 202%nat
  /\ py_len accented_trace = 101%nat
  /\ contains
       (format_error_notification sample_start_ts upper
          (with_stack_trace sample_alert (Some accented_trace)))
       ("**Stack Trace:** ```" ++ shown_trace accented_trace ++ "```") = true
  /\ shown_trace accented_trace = accented_trace.
Proof.
  split; [reflexivity|]. split; [reflexivity|].
  destruct (notification_shows_trace sample_start_ts upper
              (with_stack_trace sample_alert (Some accented_trace))
              accented_trace eq_refl ltac:(discriminate)) as (C & W & _).
  split; [exact C|]. apply W. vm_compute. lia.
Defined.

Lemma notification_affected_users_witness :
  contains
    (format_error_notification sample_start_ts upper
       (with_affected_users sample_alert (Some 500)))
    "**Affected Users:** ~500" = true.
Proof.
  apply (proj2 (notification_affected_users sample_start_ts upper sample_alert 500)).
  discriminate.
Defined.

Lemma notification_recent_logs_witness :
  contains
    (format_error_notification sample_start_ts upper
       (with_recent_logs sample_alert (Some [VStr "line 1"; VStr "line 2"])))
    "**Recent Logs:** 2 entries available" = true.
Proof.
  apply (proj2 (proj2 (notification_recent_logs sample_start_ts upper
                         sample_alert [VStr "line 1"; VStr "line 2"])
                  ltac:(discriminate))).
Defined.

Lemma send_chat_notification_result_witness :
  fst (send_chat_notification "https://chat.example/hook"
         (fun _ _ _ => Responded 204) "db down" [])
  = Ok true.
Proof.
  apply (proj1 (send_chat_notification_result "https://chat.example/hook"
                  (fun _ _ _ => Responded 204) "db down" [])).
  split; [discriminate|]. exists 204. split; reflexivity.
Defined.

Lemma store_alert_result_witness :
  fst (store_alert_in_bigquery (Some "demo") "chat_alert_test" "alerts"
         (fun _ => Ok echo_client) insert_ok sample_start_ts sample_alert [])
  = Ok true.
Proof.
  destruct (store_alert_result (Some "demo") "chat_alert_test" "alerts"
              (fun _ => Ok echo_client) insert_ok sample_start_ts sample_alert [])
    as (stored & E & I).
  rewrite E. f_equal. apply I. exists "demo".
  split; [reflexivity|]. split; [discriminate|].
  split; [now exists echo_client | reflexivity].
Defined.

Lemma check_token_passes_iff_witness :
  _check_token "secret" (Some "secret") (VDict [("type", VStr "MESSAGE")]) = Ok tt.
Proof.
  apply (proj1 (check_token_passes_iff "secret" (Some "secret")
                  [("type", VStr "MESSAGE")])).
  right. left. reflexivity.
Defined.

Lemma reply_text_and_response_dict_witness :
  _reply_text "hi" (Some "spaces/A/threads/B")
  = response_dict "hi" (VStr "spaces/A/threads/B").
Proof.
  apply (proj1 (reply_text_and_response_dict "hi" (Some "spaces/A/threads/B"))).
  reflexivity.
Defined.
